(** * economoney_bot: the balance ledger and its reports

    A shallow embedding of [src/app.py]: the two tables ([expenses],
    [balances]), the accrual function [get_balance], the transactions
    [add_expense] and [add_to_budget], the report queries [get_stats] and
    [get_weekly_stats], and the chat handlers with their process-wide
    dictionaries.

    Modelling choices:
    - a [datetime.date] is its proleptic Gregorian ordinal
      ([date.toordinal()]), an integer; [(a - b).days] is subtraction;
    - [date.today()] is an argument [today]; the several clock reads of one
      operation see the same day;
    - the [Float] columns and Python floats are values of a type [A] with the
      operations of the class [Num]; nothing is assumed about them unless a
      theorem says so. [float_num] is the program's arithmetic, binary64
      with rounding to nearest, ties to even, as Python's [float] and
      PostgreSQL's [double precision] have it; [Q_num] is exact rational
      arithmetic. A theorem that names no instance holds of both; one
      stated on [Q] is about exact amounts and says so;
    - a table is the list of its rows in insertion order; where SQL leaves the
      row order open (no ORDER BY, ties), rows come in insertion order;
    - [session.add] followed by a flush is an append to the table, and
      [session.commit()] leaves the visible rows as they are;
    - a call or a handler runs from its first line to its last on the state
      the previous one left. The bot starts a task for every update, and
      tasks may interleave at every [await]: [run] and [run_events] are the
      serial executions, in which no handler begins before the one before
      it has ended, and what is proved of them is proved of those
      executions only;
    - a text is a string of bytes; the amount filter is modelled on ASCII
      digits. *)

From Stdlib Require Import ZArith QArith Qabs List Bool String Ascii Lia Lqa.
From Stdlib Require Import Permutation Setoid Sorted.
From Stdlib Require Import DecimalString DecimalPos.
From Stdlib Require Floats.
From stdpp Require Import gmap strings.
Import ListNotations.

Local Open Scope string_scope.
Local Open Scope Z_scope.

(** ** Dates *)

Definition date := Z.

(** Day of the month of an ordinal (civil-from-days on the 400-year cycle,
    eras starting on 1 March); [date(1, 1, 1).toordinal() = 1]. *)
Definition day_of_month (d : date) : Z :=
  let z := d + 305 in
  let doe := z mod 146097 in
  let yoe := (doe - doe / 1460 + doe / 36524 - doe / 146096) / 365 in
  let doy := doe - (365 * yoe + yoe / 4 - yoe / 100) in
  let mp := (5 * doy + 2) / 153 in
  doy - (153 * mp + 2) / 5 + 1.

(** [d.replace(day=1)] *)
Definition replace_day_1 (d : date) : date := d - (day_of_month d - 1).

(** ** Configuration *)

Definition DAILY_LIMIT : Z := 2000.

(** ** Amounts *)

Class Num (A : Type) := {
  add : A -> A -> A;
  sub : A -> A -> A;
  (** an [int] operand of mixed arithmetic *)
  of_int : Z -> A;
  (** [float(text)] of a sign, the digits read as one number, and the count
      of digits after the point *)
  of_decimal : bool -> N -> nat -> A;
  (** [amount >= 0] *)
  is_nonneg : A -> bool;
  (** [abs(amount)] *)
  num_abs : A -> A;
  (** falsy as a number: [amount == 0] *)
  is_zero : A -> bool
}.

(** ** The store and the session *)

Section Ledger.

Context {A : Type} {num : Num A}.

Record Expense := {
  e_id : Z;
  e_user_id : Z;
  e_amount : A;
  e_date : date;
  e_category : option string
}.

Record Balance := {
  b_id : Z;
  b_user_id : Z;
  b_date : date;
  b_balance : A
}.

Record Store := {
  expenses : list Expense;
  balances : list Balance
}.

Definition empty_store : Store := {| expenses := []; balances := [] |}.

(** A session computation: the rows it sees and leaves. *)
Definition DB (X : Type) : Type := Store -> X * Store.

Definition ret {X} (x : X) : DB X := fun s => (x, s).

Definition bind {X Y} (c : DB X) (k : X -> DB Y) : DB Y :=
  fun s => let (x, s') := c s in k x s'.

Notation "'let*' x ':=' c 'in' k" := (bind c (fun x => k))
  (at level 10, x name, c at level 100, k at level 200).

(** [session.execute(select(...))]: a read. *)
Definition db_select {X} (q : Store -> X) : DB X := fun s => (q s, s).

(** [session.add(Expense(...))]; the primary key is the next serial. *)
Definition session_add_expense (user_id : Z) (amount : A) (d : date)
    (category : option string) : DB unit :=
  fun s =>
    let e := {| e_id := Z.of_nat (List.length (expenses s)) + 1;
                e_user_id := user_id; e_amount := amount; e_date := d;
                e_category := category |} in
    (tt, {| expenses := expenses s ++ [e]; balances := balances s |}).

(** [session.add(Balance(...))] *)
Definition session_add_balance (user_id : Z) (d : date) (v : A) : DB unit :=
  fun s =>
    let b := {| b_id := Z.of_nat (List.length (balances s)) + 1;
                b_user_id := user_id; b_date := d; b_balance := v |} in
    (tt, {| expenses := expenses s; balances := balances s ++ [b] |}).

(** [session.commit()] *)
Definition commit : DB unit := ret tt.

(** [filter_by(user_id=user_id, date=today)] on balances *)
Definition balance_at (user_id : Z) (d : date) (b : Balance) : bool :=
  (b_user_id b =? user_id) && (b_date b =? d).

(** [select(Balance).filter_by(user_id=..., date=...)], [.first()] *)
Definition first_balance_at (user_id : Z) (d : date) (s : Store) : option Balance :=
  List.find (balance_at user_id d) (balances s).

(** [order_by(Balance.date.desc()).limit(1)] over one row list: the row of
    greatest date, the earliest such row on a tie. *)
Definition later_of (best : option Balance) (b : Balance) : option Balance :=
  match best with
  | None => Some b
  | Some c => if b_date c <? b_date b then Some b else Some c
  end.

Definition latest (rows : list Balance) : option Balance :=
  fold_left later_of rows None.

(** [select(Balance).filter(Balance.user_id == user_id)
      .order_by(Balance.date.desc()).limit(1)], [.first()] *)
Definition last_balance_of (user_id : Z) (s : Store) : option Balance :=
  latest (List.filter (fun b => b_user_id b =? user_id) (balances s)).

(** ** Balance functions *)

Definition get_balance (today : date) (user_id : Z) : DB A :=
  let* balance_today := db_select (first_balance_at user_id today) in
  match balance_today with
  | Some bt => ret (b_balance bt)
  | None =>
    let* last_balance := db_select (last_balance_of user_id) in
    match last_balance with
    | None =>
      let* _ := session_add_balance user_id today (of_int DAILY_LIMIT) in
      let* _ := commit in
      ret (of_int DAILY_LIMIT)
    | Some lb =>
      let days_passed := today - b_date lb in
      if days_passed <=? 0 then ret (b_balance lb)
      else
        let new_balance_value := add (b_balance lb) (of_int (days_passed * DAILY_LIMIT)) in
        let* _ := session_add_balance user_id today new_balance_value in
        let* _ := commit in
        ret new_balance_value
    end
  end.

(** The rows of [Balance.__table__.update().where(...).values(balance=v)] *)
Definition set_balance_at (user_id : Z) (d : date) (v : A) (b : Balance) : Balance :=
  if balance_at user_id d b
  then {| b_id := b_id b; b_user_id := b_user_id b; b_date := b_date b; b_balance := v |}
  else b.

(** The row count of that UPDATE, which the program does not read. *)
Definition rows_matched (user_id : Z) (d : date) (s : Store) : nat :=
  List.length (List.filter (balance_at user_id d) (balances s)).

Definition execute_update (user_id : Z) (d : date) (v : A) : DB unit :=
  fun s => (tt, {| expenses := expenses s;
                   balances := List.map (set_balance_at user_id d v) (balances s) |}).

Definition update_balance (today : date) (user_id : Z) (new_balance : A) : DB unit :=
  let* _ := execute_update user_id today new_balance in
  commit.

Definition add_expense (today : date) (user_id : Z) (amount : A)
    (category : option string) : DB A :=
  let* balance := get_balance today user_id in
  let new_balance := sub balance amount in
  let* _ := session_add_expense user_id amount today category in
  let* _ := update_balance today user_id new_balance in
  ret new_balance.

Definition add_to_budget (today : date) (user_id : Z) (amount : A) : DB A :=
  let* current_balance := get_balance today user_id in
  let new_balance := add current_balance amount in
  let* _ := update_balance today user_id new_balance in
  let* _ := commit in
  ret new_balance.

(** ** Python and SQL containers *)

(** A [dict] in insertion order. *)
Fixpoint dict_get {K} `{EqDecision K} {V} (k : K) (d : list (K * V)) : option V :=
  match d with
  | [] => None
  | (k', v) :: r => if decide (k' = k) then Some v else dict_get k r
  end.

(** [d[k] = v] *)
Fixpoint dict_set {K} `{EqDecision K} {V} (k : K) (v : V) (d : list (K * V)) : list (K * V) :=
  match d with
  | [] => [(k, v)]
  | (k', v') :: r => if decide (k' = k) then (k', v) :: r else (k', v') :: dict_set k v r
  end.

(** [f] applied in place to the value stored under [k] *)
Fixpoint dict_update {K} `{EqDecision K} {V} (k : K) (f : V -> V) (d : list (K * V)) : list (K * V) :=
  match d with
  | [] => []
  | (k', v') :: r => if decide (k' = k) then (k', f v') :: r else (k', v') :: dict_update k f r
  end.

Definition dict_keys {K V} (d : list (K * V)) : list K := List.map fst d.
Definition dict_values {K V} (d : list (K * V)) : list V := List.map snd d.

(** [sum(xs)], which starts from the integer 0 *)
Definition py_sum (xs : list A) : A := fold_left add xs (of_int 0).

(** One more row of a [GROUP BY k] with [func.sum]: its amount joins the
    group of its key, or opens one. *)
Fixpoint group_add {K} `{EqDecision K} (k : K) (v : A) (acc : list (K * A)) : list (K * A) :=
  match acc with
  | [] => [(k, v)]
  | (k', v') :: r => if decide (k' = k) then (k', add v' v) :: r else (k', v') :: group_add k v r
  end.

Definition group_sum {K} `{EqDecision K} (rows : list (K * A)) : list (K * A) :=
  fold_left (fun acc kv => group_add (fst kv) (snd kv) acc) rows [].

(** [func.sum] without grouping: NULL over no row. *)
Definition sql_sum (xs : list A) : option A :=
  match xs with
  | [] => None
  | x :: r => Some (fold_left add r x)
  end.

(** [ORDER BY] a date, ascending and stable. *)
Fixpoint insert_by {X} (key : X -> date) (x : X) (sorted : list X) : list X :=
  match sorted with
  | [] => [x]
  | y :: r => if key x <=? key y then x :: y :: r else y :: insert_by key x r
  end.

Definition order_by {X} (key : X -> date) (rows : list X) : list X :=
  fold_right (insert_by key) [] rows.

(** [sorted(set(ds))] *)
Fixpoint insert_day (d : date) (sorted : list date) : list date :=
  match sorted with
  | [] => [d]
  | y :: r => if d <? y then d :: y :: r else if d =? y then y :: r else y :: insert_day d r
  end.

Definition sorted_set (ds : list date) : list date := fold_right insert_day [] ds.

(** ** Reports *)

Definition expense_since (user_id : Z) (start_date : date) (e : Expense) : bool :=
  (e_user_id e =? user_id) && (start_date <=? e_date e).

Definition get_stats (today : date) (user_id : Z) (period : string)
    : DB (list (option string * A)) :=
  let start_date :=
    if String.eqb period "day" then today
    else if String.eqb period "week" then today - 7
    else if String.eqb period "month" then replace_day_1 today
    else today in
  db_select (fun s =>
    group_sum (List.map (fun e => (e_category e, e_amount e))
                 (List.filter (expense_since user_id start_date) (expenses s)))).

Definition uncategorized : string := "Без категории".

(** [cat or "Без категории"]: [None] and the empty string are falsy. *)
Definition label (cat : option string) : string :=
  match cat with
  | Some c => if String.eqb c "" then uncategorized else c
  | None => uncategorized
  end.

(** The body of the loop that fills [daily_stats]. *)
Definition daily_stats_step (daily_stats : list (date * list (string * A)))
    (row : date * option string * A) : list (date * list (string * A)) :=
  let '(d, cat, amount) := row in
  let daily_stats1 :=
    match dict_get d daily_stats with
    | None => dict_set d [] daily_stats
    | Some _ => daily_stats
    end in
  dict_update d (dict_set (label cat) amount) daily_stats1.

Definition weekly_rows (start_date : date) (user_id : Z) (s : Store)
    : list (date * option string * A) :=
  order_by (fun r => fst (fst r))
    (group_sum (List.map (fun e => ((e_date e, e_category e), e_amount e))
                  (List.filter (expense_since user_id start_date) (expenses s)))).

Definition balance_since (user_id : Z) (start_date : date) (b : Balance) : bool :=
  (b_user_id b =? user_id) && (start_date <=? b_date b).

Definition weekly_balance_rows (start_date : date) (user_id : Z) (s : Store)
    : list (date * A) :=
  order_by fst
    (List.map (fun b => (b_date b, b_balance b))
       (List.filter (balance_since user_id start_date) (balances s))).

Definition get_weekly_stats (today : date) (user_id : Z)
    : DB (list (date * list (string * A)) * list (date * A) * A) :=
  let start_date := today - 6 in
  let* rows := db_select (weekly_rows start_date user_id) in
  let daily_stats := fold_left daily_stats_step rows [] in
  let* balances_result := db_select (weekly_balance_rows start_date user_id) in
  let balances := fold_left (fun acc db => dict_set (fst db) (snd db) acc) balances_result [] in
  let total_sum := py_sum (List.map (fun cats => py_sum (dict_values cats)) (dict_values daily_stats)) in
  ret (daily_stats, balances, total_sum).

(** The end-of-day balance of the day report ([stats_callback], the block
    under [if period == "day"]). *)
Definition day_report_balance (today : date) (user_id : Z) : DB A :=
  let* balance_today :=
    db_select (fun s => option_map b_balance (first_balance_at user_id today s)) in
  match balance_today with
  | Some v => ret v
  | None =>
    let* last_balance_row := db_select (last_balance_of user_id) in
    let restored_balance :=
      match last_balance_row with
      | Some lb =>
        let days_passed := today - b_date lb in
        add (b_balance lb) (of_int (days_passed * DAILY_LIMIT))
      | None => of_int DAILY_LIMIT
      end in
    let* spent :=
      db_select (fun s =>
        sql_sum (List.map e_amount
                   (List.filter (fun e => (e_user_id e =? user_id) && (e_date e =? today))
                      (expenses s)))) in
    let spent_today :=
      match spent with
      | Some v => if is_zero v then of_int 0 else v
      | None => of_int 0
      end in
    ret (sub restored_balance spent_today)
  end.

(** ** Chat input *)

Definition is_digit (c : ascii) : bool :=
  let n := nat_of_ascii c in (48 <=? n)%nat && (n <=? 57)%nat.

Fixpoint all_digits (s : string) : bool :=
  match s with
  | EmptyString => true
  | String c r => is_digit c && all_digits r
  end.

(** [\d+] against a whole string *)
Definition digits1 (s : string) : bool :=
  match s with
  | EmptyString => false
  | String _ _ => all_digits s
  end.

(** The text up to the first [sep], and what follows it if there is one. *)
Fixpoint cut (sep : ascii) (s : string) : string * option string :=
  match s with
  | EmptyString => (EmptyString, None)
  | String c r =>
    if Ascii.eqb c sep then (EmptyString, Some r)
    else let (h, t) := cut sep r in (String c h, t)
  end.

Definition newline : ascii := ascii_of_nat 10.

(** The text without one final line feed, which a [$] leaves unmatched and
    [float] strips. *)
Fixpoint chomp (s : string) : string :=
  match s with
  | EmptyString => EmptyString
  | String c EmptyString => if Ascii.eqb c newline then EmptyString else s
  | String c r => String c (chomp r)
  end.

Definition unsign (s : string) : bool * string :=
  match s with
  | String "-" r => (true, r)
  | _ => (false, s)
  end.

(** [re.match(r"^-?\d+(\.\d+)?$", text)] on ASCII text *)
Definition amount_regexp (text : string) : bool :=
  let (int_part, frac) := cut "." (snd (unsign (chomp text))) in
  match frac with
  | None => digits1 int_part
  | Some frac_part => digits1 int_part && digits1 frac_part
  end.

(** [float(text)] for a text of that shape; [None] stands for ValueError. *)
Definition float_of_text (text : string) : option A :=
  let (negative, body) := unsign (chomp text) in
  let (int_part, frac) := cut "." body in
  match NilEmpty.uint_of_string int_part with
  | None | Some Decimal.Nil => None
  | Some i =>
    match frac with
    | None => Some (of_decimal negative (N.of_uint i) 0)
    | Some frac_part =>
      match NilEmpty.uint_of_string frac_part with
      | None | Some Decimal.Nil => None
      | Some f => Some (of_decimal negative (N.of_uint (Decimal.app i f)) (Decimal.nb_digits f))
      end
    end
  end.

(** [s.split(sep)] *)
Fixpoint split (sep : ascii) (s : string) : list string :=
  match s with
  | EmptyString => [EmptyString]
  | String c r =>
    if Ascii.eqb c sep then EmptyString :: split sep r
    else match split sep r with
         | h :: t => String c h :: t
         | [] => [String c EmptyString]
         end
  end.

(** ** Chat handlers *)

Record Bot := {
  store : Store;
  pending_expenses : gmap Z A;
  awaiting_budget_add : gset Z
}.

Inductive DayBalance :=
| BalanceFound (b : A)
| BalanceNotFound.

(** The lines of one day of the week report; no category line stands for
    the line that says there were no expenses. *)
Record DayLines := {
  dl_date : date;
  dl_cats : list (string * A);
  dl_day_total : A;
  dl_balance : DayBalance
}.

Inductive Reply :=
| Greeting (current_balance : A)
| BudgetChanged (sign_text : string) (abs_amount new_balance : A)
| ChooseCategory
| NoPendingAmount
| Spent (amount : A) (category : string) (new_balance : A)
| AskBudgetAmount
| WeekNothingFound
| WeekReport (days : list DayLines) (total_sum : A)
| PeriodReport (name : string) (rows : list (string * A)) (total : A)
    (balance_today : option A)
| CallbackAnswered.

Inductive Exn :=
| KeyError (key : string)
| IndexError
| ValueError.

Inductive Outcome :=
| Done (bot : Bot) (out : list Reply)
| Raised (e : Exn) (bot : Bot) (out : list Reply).

(** [async with async_session() as session: x = await c] *)
Definition in_session {X} (c : DB X) (bot : Bot) : X * Bot :=
  let (x, s) := c (store bot) in
  (x, {| store := s;
         pending_expenses := pending_expenses bot;
         awaiting_budget_add := awaiting_budget_add bot |}).

Definition start_cmd (today : date) (user_id : Z) (bot : Bot) : Outcome :=
  let (current_balance, bot1) := in_session (get_balance today user_id) bot in
  Done bot1 [Greeting current_balance].

Definition handle_amount (today : date) (user_id : Z) (text : string) (bot : Bot)
    : Outcome :=
  if decide (user_id ∈ awaiting_budget_add bot) then
    match float_of_text text with
    | None => Raised ValueError bot []
    | Some amount =>
      let (new_balance, bot1) := in_session (add_to_budget today user_id amount) bot in
      let bot2 := {| store := store bot1;
                     pending_expenses := pending_expenses bot1;
                     awaiting_budget_add := awaiting_budget_add bot1 ∖ {[user_id]} |} in
      let sign_text := if is_nonneg amount then "пополнен" else "уменьшен" in
      Done bot2 [BudgetChanged sign_text (num_abs amount) new_balance]
    end
  else
    match float_of_text text with
    | None => Raised ValueError bot []
    | Some amount =>
      Done {| store := store bot;
              pending_expenses := <[user_id := amount]> (pending_expenses bot);
              awaiting_budget_add := awaiting_budget_add bot |}
           [ChooseCategory]
    end.

Definition handle_category (today : date) (user_id : Z) (data : string) (bot : Bot)
    : Outcome :=
  match snd (cut "_" data) with
  | None => Raised IndexError bot []
  | Some category =>
    let amount := pending_expenses bot !! user_id in
    let bot1 := {| store := store bot;
                   pending_expenses := delete user_id (pending_expenses bot);
                   awaiting_budget_add := awaiting_budget_add bot |} in
    match amount with
    | None => Done bot1 [NoPendingAmount]
    | Some amount =>
      let (new_balance, bot2) :=
        in_session (add_expense today user_id amount (Some category)) bot1 in
      Done bot2 [Spent amount category new_balance; CallbackAnswered]
    end
  end.

Definition handle_add_budget (user_id : Z) (bot : Bot) : Outcome :=
  Done {| store := store bot;
          pending_expenses := pending_expenses bot;
          awaiting_budget_add := {[user_id]} ∪ awaiting_budget_add bot |}
       [AskBudgetAmount; CallbackAnswered].

Definition names : list (string * string) :=
  [("day", "день"); ("week", "неделю"); ("month", "месяц")].

Definition week_day_lines (daily_stats : list (date * list (string * A)))
    (balances : list (date * A)) (d : date) : DayLines :=
  let cats := match dict_get d daily_stats with Some c => c | None => [] end in
  {| dl_date := d;
     dl_cats := cats;
     dl_day_total := match cats with [] => of_int 0 | _ => py_sum (dict_values cats) end;
     dl_balance := match dict_get d balances with
                   | Some b => BalanceFound b
                   | None => BalanceNotFound
                   end |}.

Definition stats_callback (today : date) (user_id : Z) (data : string) (bot : Bot)
    : Outcome :=
  match nth_error (split "_" data) 1 with
  | None => Raised IndexError bot []
  | Some period =>
    if String.eqb period "week" then
      let '(daily_stats, balances, total_sum, bot1) :=
        in_session (get_weekly_stats today user_id) bot in
      match daily_stats, balances with
      | [], [] => Done bot1 [WeekNothingFound; CallbackAnswered]
      | _, _ =>
        let sorted_days := sorted_set (dict_keys daily_stats ++ dict_keys balances) in
        Done bot1 [WeekReport (List.map (week_day_lines daily_stats balances) sorted_days)
                     total_sum;
                   CallbackAnswered]
      end
    else
      let (stats, bot1) := in_session (get_stats today user_id period) bot in
      match dict_get period names with
      | None => Raised (KeyError period) bot1 []
      | Some name =>
        let rows := List.map (fun ca => (label (fst ca), snd ca)) stats in
        let total := fold_left (fun total ca => add total (snd ca)) stats (of_int 0) in
        if String.eqb period "day" then
          let (balance_today, bot2) := in_session (day_report_balance today user_id) bot1 in
          Done bot2 [PeriodReport name rows total (Some balance_today); CallbackAnswered]
        else
          Done bot1 [PeriodReport name rows total None; CallbackAnswered]
      end
  end.

Inductive Event :=
| Message (user_id : Z) (text : string)
| Callback (user_id : Z) (data : string).

(** The dispatcher: the first handler whose filter accepts the event. *)
Definition dispatch (today : date) (ev : Event) (bot : Bot) : Outcome :=
  match ev with
  | Message user_id text =>
    if String.eqb text "/start" then start_cmd today user_id bot
    else if amount_regexp text then handle_amount today user_id text bot
    else Done bot []
  | Callback user_id data =>
    if String.prefix "cat_" data then handle_category today user_id data bot
    else if String.eqb data "add_budget" then handle_add_budget user_id bot
    else if String.prefix "stats_" data then stats_callback today user_id data bot
    else Done bot []
  end.

End Ledger.

Arguments Expense : clear implicits.
Arguments Balance : clear implicits.
Arguments Store : clear implicits.
Arguments Bot : clear implicits.
Arguments Reply : clear implicits.
Arguments Outcome : clear implicits.
Arguments DayLines : clear implicits.
Arguments DayBalance : clear implicits.

(** ** Exact amounts *)

#[export] Instance Q_num : Num Q := {|
  add := Qplus;
  sub := Qminus;
  of_int := inject_Z;
  of_decimal := fun negative m k =>
    let q := Qmake (Z.of_N m) (Z.to_pos (10 ^ Z.of_nat k)) in
    if negative then Qopp q else q;
  is_nonneg := fun a => Qle_bool 0 a;
  num_abs := Qabs;
  is_zero := fun a => Qeq_bool a 0
|}.

(** ** The program's amounts: binary64 *)

(** An [int] next to a float: the float nearest to it, ties to even. *)
Definition float_of_Z (z : Z) : PrimFloat.float :=
  FloatOps.SF2Prim (SpecFloat.binary_normalize FloatOps.prec FloatOps.emax z 0 false).

(** [float(text)] of a decimal numeral with the digits [m], of which [k]
    stand after the point: the float nearest to [m / 10^k], ties to even;
    a numeral of zeros keeps its sign. *)
Definition float_of_decimal (negative : bool) (m : N) (k : nat) : PrimFloat.float :=
  match m with
  | N0 => if negative then PrimFloat.neg_zero else PrimFloat.zero
  | Npos p =>
    FloatOps.SF2Prim
      (SpecFloat.SFdiv FloatOps.prec FloatOps.emax
         (SpecFloat.S754_finite negative p 0)
         (SpecFloat.S754_finite false (Z.to_pos (10 ^ Z.of_nat k)) 0))
  end.

#[export] Instance float_num : Num PrimFloat.float := {|
  add := PrimFloat.add;
  sub := PrimFloat.sub;
  of_int := float_of_Z;
  of_decimal := float_of_decimal;
  is_nonneg := fun a => PrimFloat.leb PrimFloat.zero a;
  num_abs := PrimFloat.abs;
  is_zero := fun a => PrimFloat.eqb a PrimFloat.zero
|}.

(** ** Vocabulary of the statements *)

(** No snapshot of the user is dated after [today]. *)
Definition no_later_snapshot {A} (user_id : Z) (today : date) (s : Store A) : bool :=
  forallb (fun b => negb (b_user_id b =? user_id) || (b_date b <=? today)) (balances s).

(** The user's expense rows of one day. *)
Definition expenses_at {A} (user_id : Z) (d : date) (s : Store A) : list (Expense A) :=
  List.filter (fun e => (e_user_id e =? user_id) && (e_date e =? d)) (expenses s).

(** The two dictionaries [get_weekly_stats] builds. *)
Definition weekly_daily_stats {A} {num : Num A} (today : date) (user_id : Z) (s : Store A)
    : list (date * list (string * A)) :=
  fold_left daily_stats_step (weekly_rows (today - 6) user_id s) [].

Definition weekly_balances {A} (today : date) (user_id : Z) (s : Store A)
    : list (date * A) :=
  fold_left (fun acc db => dict_set (fst db) (snd db) acc)
    (weekly_balance_rows (today - 6) user_id s) [].






(** The categories of the user's expenses of one day have distinct report
    labels: NULL, the empty string and the label of uncategorized expenses
    do not meet on a day. *)
Definition labels_distinct {A} (user_id : Z) (s : Store A) : Prop :=
  forall e1 e2,
    In e1 (expenses s) -> In e2 (expenses s) ->
    e_user_id e1 = user_id -> e_user_id e2 = user_id ->
    e_date e1 = e_date e2 ->
    label (e_category e1) = label (e_category e2) ->
    e_category e1 = e_category e2.

(** Sums of rationals, from the right. *)
Definition qsum (xs : list Q) : Q := fold_right Qplus 0%Q xs.



(** The row [session_add_balance] appends, and the store with it. *)
Definition new_snapshot {A} (s : Store A) (user_id : Z) (today : date) (v : A) : Balance A :=
  {| b_id := Z.of_nat (List.length (balances s)) + 1;
     b_user_id := user_id; b_date := today; b_balance := v |}.

Definition with_snapshot {A} (s : Store A) (b : Balance A) : Store A :=
  {| expenses := expenses s; balances := balances s ++ [b] |}.

(** ** Runs of the ledger *)

(** The entry points that write: [get_balance] (as [start_cmd] calls it),
    [add_expense] and [add_to_budget]. *)
Inductive Op (A : Type) :=
| Resolve (user_id : Z)
| Post (user_id : Z) (amount : A) (category : option string)
| Adjust (user_id : Z) (amount : A).

Arguments Resolve {A}.
Arguments Post {A}.
Arguments Adjust {A}.

Definition run_op {A} {num : Num A} (today : date) (op : Op A) (s : Store A) : Store A :=
  match op with
  | Resolve u => snd (get_balance today u s)
  | Post u amount category => snd (add_expense today u amount category s)
  | Adjust u amount => snd (add_to_budget today u amount s)
  end.




(** What such runs maintain: no snapshot is dated after [today], and no
    (user, day) has two. *)
Definition ledger_ok {A} (today : date) (s : Store A) : Prop :=
  (forall b, In b (balances s) -> b_date b <= today) /\
  (forall u d, (rows_matched u d s <= 1)%nat).

(** ** Example stores *)

Definition snapshot (id user_id : Z) (d : date) (v : Q) : Balance Q :=
  {| b_id := id; b_user_id := user_id; b_date := d; b_balance := v |}.

Definition expense (id user_id : Z) (amount : Q) (d : date) (category : option string)
    : Expense Q :=
  {| e_id := id; e_user_id := user_id; e_amount := amount; e_date := d;
     e_category := category |}.

(** User 7 spent 500 on day 1 of a fresh ledger. *)
Definition ex_day1 : Store Q :=
  {| expenses := [expense 1 7 500 1 (Some "Groceries")];
     balances := [snapshot 1 7 1 1500] |}.

(** The clock stood at day 11 when user 7 was first seen, and now reads 10. *)
Definition ex_skew : Store Q :=
  {| expenses := []; balances := [snapshot 1 7 11 5000] |}.

(** A snapshot of day 9 and an expense dated 10 with no snapshot of day 10. *)
Definition ex_unsettled : Store Q :=
  {| expenses := [expense 1 7 100 10 (Some "Прочее")];
     balances := [snapshot 1 7 9 1000] |}.

(** *** Ledgers in the program's floats, on days of March 2024 *)

(** 2024-03-10, as [date.toordinal()] gives it. *)
Definition march_10 : date := 738955.

Definition fsnapshot (id user_id : Z) (d : date) (v : Z) : Balance PrimFloat.float :=
  {| b_id := id; b_user_id := user_id; b_date := d; b_balance := float_of_Z v |}.

Definition fexpense (id user_id : Z) (amount : Z) (d : date) (category : option string)
    : Expense PrimFloat.float :=
  {| e_id := id; e_user_id := user_id; e_amount := float_of_Z amount; e_date := d;
     e_category := category |}.

(** The clock stood at 11 March when user 7 was first seen, and reads
    10 March now. *)
Definition fl_skew : Store PrimFloat.float :=
  {| expenses := []; balances := [fsnapshot 1 7 (march_10 + 1) 5000] |}.

(** User 7 spent 500 on 10 March, on a fresh ledger. *)
Definition fl_spent : Store PrimFloat.float :=
  {| expenses := [fexpense 1 7 500 march_10 (Some "Groceries")];
     balances := [fsnapshot 1 7 march_10 1500] |}.

(** Two snapshots of user 7 for 10 March, as two racing first requests of
    the day leave them. *)
Definition fl_duplicate : Store PrimFloat.float :=
  {| expenses := [];
     balances := [fsnapshot 1 7 march_10 2000; fsnapshot 2 7 march_10 2000] |}.

(** A snapshot for 10 March and one for 11 March: the clock went back after
    the user was seen on both days. *)
Definition fl_both : Store PrimFloat.float :=
  {| expenses := [];
     balances := [fsnapshot 1 7 march_10 2000; fsnapshot 2 7 (march_10 + 1) 4000] |}.




(** A balance of 2637.01 left on 1 March. *)
Definition fl_cents : Store PrimFloat.float :=
  {| expenses := [];
     balances := [{| b_id := 1; b_user_id := 7; b_date := march_10 - 9;
                     b_balance := float_of_decimal false 263701 2 |}] |}.

(** ** Runs of the chat *)

Definition outcome_bot {A} (o : Outcome A) : Bot A :=
  match o with
  | Done bot _ => bot
  | Raised _ bot _ => bot
  end.

(** A serial run of the chat: each event is handled to its end before the
    next is taken up. The dispatcher logs the exception of a handler and
    polls on, so the next event meets the state the handler left. Handlers
    that interleave at their awaits are not among these runs. *)
Fixpoint run_events {A} {num : Num A} (events : list (date * Event)) (bot : Bot A)
    : Bot A :=
  match events with
  | [] => bot
  | (d, ev) :: rest => run_events rest (outcome_bot (dispatch d ev bot))
  end.

(** The days of a list of calls never decrease, from [from] on. *)
Fixpoint clock_ascends {X} (from : date) (calls : list (date * X)) : bool :=
  match calls with
  | [] => true
  | (d, _) :: rest => (from <=? d) && clock_ascends d rest
  end.

Definition clock_end {X} (from : date) (calls : list (date * X)) : date :=
  fold_left (fun _ call => fst call) calls from.

Definition event_user (ev : Event) : Z :=
  match ev with
  | Message user_id _ => user_id
  | Callback user_id _ => user_id
  end.

Definition op_user {A} (op : Op A) : Z :=
  match op with
  | Resolve u => u
  | Post u _ _ => u
  | Adjust u _ => u
  end.

(** The snapshots of one user, in table order. *)
Definition rows_of {A} (user_id : Z) (s : Store A) : list (Balance A) :=
  List.filter (fun b => b_user_id b =? user_id) (balances s).

(** What identifies a snapshot row: everything but its balance. *)
Definition snapshot_key {A} (b : Balance A) : Z * Z * date :=
  (b_id b, b_user_id b, b_date b).

(** The value [get_balance] returns, as a function of the user's rows. *)
Definition resolved_value {A} {num : Num A} (today : date) (rows : list (Balance A)) : A :=
  match List.find (fun b => b_date b =? today) rows with
  | Some bt => b_balance bt
  | None =>
    match latest rows with
    | None => of_int DAILY_LIMIT
    | Some lb =>
      if today - b_date lb <=? 0 then b_balance lb
      else add (b_balance lb) (of_int ((today - b_date lb) * DAILY_LIMIT))
    end
  end.

(** ** Keyboards *)

(** [menu_kb] and [categories_kb]: the rows of buttons, each with its text
    and its callback data. *)
Definition menu_kb : list (list (string * string)) :=
  [[("📅 День", "stats_day"); ("📈 Неделя", "stats_week"); ("📊 Месяц", "stats_month")];
   [("💰 Пополнить бюджет", "add_budget")]].

Definition categories_kb : list (list (string * string)) :=
  [[("🛒 Продукты", "cat_Продукты"); ("🎉 Развлечения", "cat_Развлечения")];
   [("🍔 Доставка/Рестораны", "cat_Доставка/Рестораны"); ("🚗 Транспорт", "cat_Транспорт")];
   [("🧾 Прочее", "cat_Прочее")]].

(** The callback data a keyboard can send. *)
Definition callbacks_of (kb : list (list (string * string))) : list string :=
  List.map snd (List.concat kb).

(** The expenses of one user, in table order. *)
Definition expenses_of {A} (user_id : Z) (s : Store A) : list (Expense A) :=
  List.filter (fun e => e_user_id e =? user_id) (expenses s).

(** ** Months *)

(** The year of the era a day of the era falls in. *)
Definition yoe_of (doe : Z) : Z := (doe - doe / 1460 + doe / 36524 - doe / 146096) / 365.

(** The first day of a year of the era. *)
Definition year_start (yoe : Z) : Z := 365 * yoe + yoe / 4 - yoe / 100.

(** The day after the last of a year of the era: the 400th year ends the
    era on its leap day. *)
Definition year_end (yoe : Z) : Z := year_start (yoe + 1) + (yoe + 1) / 400.

(** The day of the month of a day of a year that starts on 1 March. *)
Definition month_day (doy : Z) : Z := doy - (153 * ((5 * doy + 2) / 153) + 2) / 5 + 1.

(** The years of an era begin and end where [yoe_of] says. *)
Definition years_ok : bool :=
  forallb (fun y => (yoe_of (year_start y) =? y) && (yoe_of (year_end y - 1) =? y))
    (List.map Z.of_nat (seq 0 400)).

(** The days of a month count up from 1. *)
Definition month_days_ok : bool :=
  forallb (fun k => let m := month_day k in
                    (1 <=? m) && (m <=? 31) &&
                    ((m =? 1) || (m =? month_day (k - 1) + 1)))
    (List.map Z.of_nat (seq 0 366)).

(** ** Reports, row by row *)

(** The sum of the amounts of the expenses filed under a category. *)
Definition category_sum (cat : option string) (es : list (Expense Q)) : Q :=
  qsum (List.map e_amount (List.filter (fun e => bool_decide (e_category e = cat)) es)).

(** A day from the first day of the weekly window on, with an expense or
    a snapshot of the user. *)
Definition in_week_report {A} (today : date) (user_id : Z) (s : Store A) (d : date) : Prop :=
  today - 6 <= d /\
  ((exists e, In e (expenses s) /\ e_user_id e = user_id /\ e_date e = d) \/
   (exists b, In b (balances s) /\ b_user_id b = user_id /\ b_date b = d)).

(** ** Keyboards and categories *)

(** Every expense is filed under a category that is not the empty text. *)
Definition labelled {A} (s : Store A) : Prop :=
  forall e, In e (expenses s) -> exists c, e_category e = Some c /\ c <> "".

(** A message, or a button of one of the two keyboards. *)
Definition offered (ev : Event) : Prop :=
  match ev with
  | Message _ _ => True
  | Callback _ data => In data (callbacks_of menu_kb ++ callbacks_of categories_kb)%list
  end.

(** Every expense was posted on a day that has a snapshot of its user. *)
Definition settled {A} (s : Store A) : Prop :=
  forall e, In e (expenses s) ->
    exists b, In b (balances s) /\ b_user_id b = e_user_id e /\ b_date b = e_date e.

(** The balance of the user's last snapshot row for day [d], in table
    order. *)
Definition last_balance_at {A} (user_id : Z) (d : date) (s : Store A) : option A :=
  fold_left (fun _ b => Some (b_balance b))
    (List.filter (balance_at user_id d) (balances s)) None.





(** * Facts *)

Section LedgerFacts.

Context {A : Type} {num : Num A}.

Implicit Types (s : Store A) (u today : Z).

(** ** Queries *)

Lemma find_app_miss {X} (f : X -> bool) (l1 l2 : list X) :
  List.find f l1 = None -> List.find f (l1 ++ l2) = List.find f l2.
Proof.
  induction l1 as [|x l1 IH]; simpl; [reflexivity|].
  destruct (f x); [discriminate | exact IH].
Qed.


Lemma find_none_filter {X} (f : X -> bool) (l : list X) :
  List.find f l = None -> List.filter f l = [].
Proof.
  induction l as [|x l IH]; simpl; [reflexivity|].
  destruct (f x); [discriminate | exact IH].
Qed.

Lemma find_some_filter {X} (f : X -> bool) (l : list X) x :
  List.find f l = Some x -> (1 <= List.length (List.filter f l))%nat.
Proof.
  induction l as [|y l IH]; simpl; [discriminate|].
  destruct (f y); simpl; [lia | exact IH].
Qed.

Lemma later_of_fold (rows : list (Balance A)) acc lb :
  fold_left later_of rows acc = Some lb ->
  (In lb rows \/ acc = Some lb) /\
  (forall b, In b rows \/ acc = Some b -> b_date b <= b_date lb).
Proof.
  revert acc. induction rows as [|r rows IH]; simpl; intros acc H.
  - split; [now right|]. intros b [[]|Hb]. rewrite Hb in H.
    injection H as ->. lia.
  - destruct (IH _ H) as [Hin Hmax]. split.
    + destruct Hin as [Hin|Hacc]; [now left; right|].
      destruct acc as [c|]; simpl in Hacc.
      * destruct (b_date c <? b_date r); injection Hacc as <-; [now left; left | now right].
      * injection Hacc as <-. now left; left.
    + intros b [[<-|Hb]|Hb].
      * destruct acc as [c|]; simpl in *.
        -- destruct (Z.ltb_spec (b_date c) (b_date r)).
           ++ apply Hmax. now right.
           ++ specialize (Hmax c (or_intror eq_refl)). lia.
        -- apply Hmax. now right.
      * apply Hmax. now left.
      * subst acc. simpl in *.
        destruct (Z.ltb_spec (b_date b) (b_date r)).
        -- specialize (Hmax r (or_intror eq_refl)). lia.
        -- apply Hmax. now right.
Qed.

Lemma later_of_fold_some (rows : list (Balance A)) c :
  fold_left later_of rows (Some c) <> None.
Proof.
  revert c. induction rows as [|r rows IH]; simpl; intros c; [discriminate|].
  destruct (b_date c <? b_date r); apply IH.
Qed.

(** What [last_balance_of] finds is a row of the user, of greatest date. *)
Lemma last_balance_of_some s u lb :
  last_balance_of u s = Some lb ->
  In lb (balances s) /\ b_user_id lb = u /\
  (forall b, In b (balances s) -> b_user_id b = u -> b_date b <= b_date lb).
Proof.
  unfold last_balance_of, latest. intros H.
  apply later_of_fold in H. destruct H as [[Hin|Hacc] Hmax]; [|discriminate].
  apply filter_In in Hin. destruct Hin as [Hin Hu]. apply Z.eqb_eq in Hu.
  repeat split; trivial.
  intros b Hb Hbu. apply Hmax. left. apply filter_In. split; [trivial|].
  now apply Z.eqb_eq.
Qed.

(** It finds nothing exactly when the user has no row. *)
Lemma last_balance_of_none s u :
  last_balance_of u s = None <->
  (forall b, In b (balances s) -> b_user_id b <> u).
Proof.
  unfold last_balance_of, latest. split.
  - intros H b Hb Hu.
    assert (Hin : In b (List.filter (fun b => b_user_id b =? u) (balances s))).
    { apply filter_In. split; [trivial | now apply Z.eqb_eq]. }
    destruct (List.filter (fun b => b_user_id b =? u) (balances s)) as [|r rows];
      [destruct Hin|].
    simpl in H. now apply later_of_fold_some in H.
  - intros H.
    assert (E : List.filter (fun b => b_user_id b =? u) (balances s) = []).
    { induction (balances s) as [|r rows IH]; simpl; [reflexivity|].
      destruct (Z.eqb_spec (b_user_id r) u) as [Hu|_].
      - exfalso. apply (H r); [now left | trivial].
      - apply IH. intros b Hb. apply H. now right. }
    now rewrite E.
Qed.

Lemma first_balance_at_none s u d :
  first_balance_at u d s = None <->
  (forall b, In b (balances s) -> ~ (b_user_id b = u /\ b_date b = d)).
Proof.
  unfold first_balance_at. split.
  - intros H b Hb [Hu Hd].
    pose proof (find_none _ _ H b Hb) as F. unfold balance_at in F.
    rewrite (proj2 (Z.eqb_eq _ _) Hu), (proj2 (Z.eqb_eq _ _) Hd) in F. discriminate.
  - intros H. destruct (List.find _ _) as [b|] eqn:E; [|reflexivity].
    apply find_some in E. destruct E as [Hb F]. unfold balance_at in F.
    apply andb_true_iff in F. destruct F as [Hu Hd].
    exfalso. apply (H b Hb). split; now apply Z.eqb_eq.
Qed.

Lemma no_later_snapshot_spec s u today :
  no_later_snapshot u today s = true <->
  (forall b, In b (balances s) -> b_user_id b = u -> b_date b <= today).
Proof.
  unfold no_later_snapshot. rewrite forallb_forall. split.
  - intros H b Hb Hu. specialize (H b Hb).
    apply orb_true_iff in H. destruct H as [H|H].
    + apply negb_true_iff in H. apply Z.eqb_neq in H. contradiction.
    + now apply Z.leb_le.
  - intros H b Hb. destruct (Z.eqb_spec (b_user_id b) u) as [Hu|_]; simpl; [|reflexivity].
    apply Z.leb_le. now apply H.
Qed.

(** ** The accrual engine, case by case *)

Lemma get_balance_today s u today bt :
  first_balance_at u today s = Some bt ->
  get_balance today u s = (b_balance bt, s).
Proof.
  intros H. unfold get_balance, bind, db_select. now rewrite H.
Qed.

Lemma get_balance_first s u today :
  first_balance_at u today s = None ->
  last_balance_of u s = None ->
  get_balance today u s =
    (of_int DAILY_LIMIT, with_snapshot s (new_snapshot s u today (of_int DAILY_LIMIT))).
Proof.
  intros H1 H2. unfold get_balance, bind, db_select. now rewrite H1, H2.
Qed.

Lemma get_balance_skew s u today lb :
  first_balance_at u today s = None ->
  last_balance_of u s = Some lb ->
  today - b_date lb <= 0 ->
  get_balance today u s = (b_balance lb, s).
Proof.
  intros H1 H2 Hd. unfold get_balance, bind, db_select. rewrite H1, H2.
  destruct (Z.leb_spec (today - b_date lb) 0); [reflexivity | lia].
Qed.

Lemma get_balance_catch_up s u today lb :
  first_balance_at u today s = None ->
  last_balance_of u s = Some lb ->
  1 <= today - b_date lb ->
  let v := add (b_balance lb) (of_int ((today - b_date lb) * DAILY_LIMIT)) in
  get_balance today u s = (v, with_snapshot s (new_snapshot s u today v)).
Proof.
  intros H1 H2 Hd. unfold get_balance, bind, db_select. rewrite H1, H2.
  destruct (Z.leb_spec (today - b_date lb) 0); [lia | reflexivity].
Qed.

(** The four cases, for proofs by cases. *)
Lemma get_balance_cases s u today :
  (exists bt, first_balance_at u today s = Some bt /\
     get_balance today u s = (b_balance bt, s)) \/
  (first_balance_at u today s = None /\
     exists v, get_balance today u s = (v, with_snapshot s (new_snapshot s u today v)) /\
       (last_balance_of u s = None \/
        exists lb, last_balance_of u s = Some lb /\ 1 <= today - b_date lb)) \/
  (first_balance_at u today s = None /\
     exists lb, last_balance_of u s = Some lb /\ today - b_date lb <= 0 /\
       get_balance today u s = (b_balance lb, s)).
Proof.
  destruct (first_balance_at u today s) as [bt|] eqn:H1.
  - left. exists bt. split; [reflexivity | now apply get_balance_today].
  - right. destruct (last_balance_of u s) as [lb|] eqn:H2.
    + destruct (Z.le_gt_cases (today - b_date lb) 0) as [Hd|Hd].
      * right. split; [reflexivity|]. exists lb. repeat split; trivial.
        now apply get_balance_skew.
      * left. split; [reflexivity|]. eexists. split.
        -- apply (get_balance_catch_up s u today lb); trivial. lia.
        -- right. exists lb. split; [reflexivity | lia].
    + left. split; [reflexivity|]. eexists. split.
      * now apply get_balance_first.
      * now left.
Qed.

Lemma first_balance_at_new s u today v :
  first_balance_at u today s = None ->
  first_balance_at u today (with_snapshot s (new_snapshot s u today v))
    = Some (new_snapshot s u today v).
Proof.
  unfold first_balance_at. intros H. simpl. rewrite find_app_miss by exact H.
  simpl. unfold balance_at. simpl. now rewrite !Z.eqb_refl.
Qed.

Lemma get_balance_expenses s u today :
  expenses (snd (get_balance today u s)) = expenses s.
Proof.
  destruct (get_balance_cases s u today)
    as [(bt & _ & E) | [(_ & v & E & _) | (_ & lb & _ & _ & E)]];
    rewrite E; reflexivity.
Qed.

(** With no snapshot for today and none dated later, the latest snapshot
    is dated before today. *)
Lemma last_balance_of_prior s u today lb :
  no_later_snapshot u today s = true ->
  first_balance_at u today s = None ->
  last_balance_of u s = Some lb ->
  b_date lb < today.
Proof.
  intros Hn H1 H2. rewrite no_later_snapshot_spec in Hn.
  apply last_balance_of_some in H2. destruct H2 as (Hin & Hu & _).
  pose proof (Hn lb Hin Hu) as Hle. rewrite first_balance_at_none in H1.
  assert (b_date lb <> today) by (intros E; now apply (H1 lb Hin)). lia.
Qed.

(** Resolving the balance leaves a row for today unless a later snapshot
    made it return early. *)
Lemma get_balance_settles s u today :
  no_later_snapshot u today s = true ->
  exists bt,
    first_balance_at u today (snd (get_balance today u s)) = Some bt /\
    b_balance bt = fst (get_balance today u s).
Proof.
  intros Hn. rewrite no_later_snapshot_spec in Hn.
  destruct (get_balance_cases s u today)
    as [(bt & H1 & E) | [(H1 & v & E & _) | (H1 & lb & H2 & Hd & E)]]; rewrite E; simpl.
  - now exists bt.
  - eexists. split; [now apply first_balance_at_new | reflexivity].
  - exfalso. apply last_balance_of_some in H2. destruct H2 as (Hin & Hu & _).
    pose proof (Hn lb Hin Hu) as Hle.
    rewrite first_balance_at_none in H1. apply (H1 lb Hin). split; [trivial | lia].
Qed.

Lemma rows_matched_new s u today v :
  first_balance_at u today s = None ->
  rows_matched u today (with_snapshot s (new_snapshot s u today v)) = 1%nat.
Proof.
  intros H. unfold rows_matched, first_balance_at in *. simpl.
  rewrite List.filter_app, (find_none_filter _ _ H). simpl.
  unfold balance_at. simpl. now rewrite !Z.eqb_refl.
Qed.

Lemma get_balance_one_row s u today :
  no_later_snapshot u today s = true ->
  (rows_matched u today s <= 1)%nat ->
  rows_matched u today (snd (get_balance today u s)) = 1%nat.
Proof.
  intros Hn H1. destruct (get_balance_settles s u today Hn) as (bt & Hbt & _).
  destruct (get_balance_cases s u today)
    as [(bt' & F & E) | [(F & v & E & _) | (F & lb & _ & _ & E)]];
    rewrite E in *; simpl in *.
  - apply find_some_filter in F. unfold rows_matched in *. lia.
  - now apply rows_matched_new.
  - unfold first_balance_at in *. congruence.
Qed.

(** ** Updates in place *)

Lemma balance_at_set u d (v : A) b :
  balance_at u d (set_balance_at u d v b) = balance_at u d b.
Proof.
  unfold set_balance_at. destruct (balance_at u d b) eqn:E; [|exact E].
  unfold balance_at in *. exact E.
Qed.

Lemma filter_map_length {X} (f : X -> bool) (g : X -> X) (l : list X) :
  (forall x, f (g x) = f x) ->
  List.length (List.filter f (List.map g l)) = List.length (List.filter f l).
Proof.
  intros H. induction l as [|x l IH]; simpl; [reflexivity|].
  rewrite H. destruct (f x); simpl; now rewrite IH.
Qed.

Lemma find_map_stable {X} (f : X -> bool) (g : X -> X) (l : list X) :
  (forall x, f (g x) = f x) ->
  List.find f (List.map g l) = option_map g (List.find f l).
Proof.
  intros H. induction l as [|x l IH]; simpl; [reflexivity|].
  rewrite H. destruct (f x); [reflexivity | exact IH].
Qed.

Lemma rows_matched_update s u today v :
  rows_matched u today (snd (update_balance today u v s)) = rows_matched u today s.
Proof.
  unfold rows_matched. simpl. apply filter_map_length. intros b. apply balance_at_set.
Qed.

Lemma first_balance_at_update s u today v bt :
  first_balance_at u today s = Some bt ->
  first_balance_at u today (snd (update_balance today u v s))
    = Some (set_balance_at u today v bt) /\
  b_balance (set_balance_at u today v bt) = v.
Proof.
  unfold first_balance_at. intros H. simpl. split.
  - rewrite find_map_stable by (intros b; apply balance_at_set). now rewrite H.
  - apply find_some in H. destruct H as [_ H]. unfold set_balance_at. now rewrite H.
Qed.

Lemma updated_rows_hold s u today v b :
  In b (balances (snd (update_balance today u v s))) ->
  balance_at u today b = true -> b_balance b = v.
Proof.
  simpl. intros Hin Hb. apply in_map_iff in Hin. destruct Hin as (b0 & <- & _).
  rewrite balance_at_set in Hb. unfold set_balance_at. now rewrite Hb.
Qed.

Lemma other_rows_stay s u today v b :
  In b (balances (snd (update_balance today u v s))) ->
  balance_at u today b = false -> In b (balances s).
Proof.
  simpl. intros Hin Hb. apply in_map_iff in Hin. destruct Hin as (b0 & <- & Hin).
  rewrite balance_at_set in Hb. unfold set_balance_at. now rewrite Hb.
Qed.

(** ** The transactions, step by step *)

Lemma add_expense_steps s u today amount category :
  add_expense today u amount category s =
    (sub (fst (get_balance today u s)) amount,
     snd (update_balance today u (sub (fst (get_balance today u s)) amount)
            (snd (session_add_expense u amount today category
                    (snd (get_balance today u s)))))).
Proof.
  unfold add_expense, bind. destruct (get_balance today u s) as [b s1]. reflexivity.
Qed.

Lemma add_to_budget_steps s u today amount :
  add_to_budget today u amount s =
    (add (fst (get_balance today u s)) amount,
     snd (update_balance today u (add (fst (get_balance today u s)) amount)
            (snd (get_balance today u s)))).
Proof.
  unfold add_to_budget, bind. destruct (get_balance today u s) as [b s1]. reflexivity.
Qed.

(** Posting an expense on a day whose snapshot exists. *)
Lemma add_expense_settled s u today amount category bt :
  first_balance_at u today s = Some bt ->
  let v := sub (b_balance bt) amount in
  add_expense today u amount category s =
    (v, snd (update_balance today u v (snd (session_add_expense u amount today category s)))) /\
  first_balance_at u today (snd (add_expense today u amount category s))
    = Some (set_balance_at u today v bt) /\
  b_balance (set_balance_at u today v bt) = v.
Proof.
  intros H v. rewrite add_expense_steps, (get_balance_today _ _ _ _ H). simpl fst. simpl snd.
  split; [reflexivity|]. fold v. apply first_balance_at_update. exact H.
Qed.

(** ** Accrual *)


(** C6. Resolving the balance a second time on the same day, with nothing
    written in between, returns the same value and leaves the store as the
    first call left it; and when the latest snapshot found is not older
    than today ([days_passed <= 0]) its value is returned and the store is
    untouched. *)
Theorem get_balance_idempotent s u today :
  (let (v, s1) := get_balance today u s in get_balance today u s1 = (v, s1))
  /\
  (forall lb,
     first_balance_at u today s = None ->
     last_balance_of u s = Some lb ->
     today - b_date lb <= 0 ->
     get_balance today u s = (b_balance lb, s)).
Proof.
  split.
  - destruct (get_balance_cases s u today)
      as [(bt & H1 & E) | [(H1 & v & E & _) | (H1 & lb & H2 & Hd & E)]]; rewrite E.
    + exact E.
    + now rewrite (get_balance_today _ _ _ _ (first_balance_at_new s u today v H1)).
    + exact E.
  - intros lb H1 H2 Hd. now apply get_balance_skew.
Qed.

(** Resolving the balance leaves a row for today when one was there or no
    snapshot is dated later. *)
Lemma get_balance_row s u today :
  first_balance_at u today s <> None \/ no_later_snapshot u today s = true ->
  exists bt,
    first_balance_at u today (snd (get_balance today u s)) = Some bt /\
    b_balance bt = fst (get_balance today u s).
Proof.
  intros H. destruct (first_balance_at u today s) as [bt|] eqn:F.
  - exists bt. rewrite (get_balance_today _ _ _ _ F). now split.
  - destruct H as [H|H]; [congruence|]. now apply get_balance_settles.
Qed.

(** The rows of (user, today) after the accrual: those there were, or the
    one it made. *)
Lemma get_balance_rows s u today :
  first_balance_at u today s <> None \/ no_later_snapshot u today s = true ->
  rows_matched u today (snd (get_balance today u s))
    = Nat.max 1 (rows_matched u today s).
Proof.
  intros H. destruct (first_balance_at u today s) as [bt|] eqn:F.
  - rewrite (get_balance_today _ _ _ _ F). simpl snd.
    pose proof (find_some_filter _ _ _ F) as Hone. unfold rows_matched. lia.
  - destruct H as [H|H]; [congruence|].
    assert (H0 : rows_matched u today s = 0%nat).
    { unfold rows_matched. unfold first_balance_at in F.
      now rewrite (find_none_filter _ _ F). }
    rewrite H0. simpl Nat.max. apply get_balance_one_row; [exact H | lia].
Qed.

(** ** Manual adjustment *)

(** X20. What [add_to_budget] does on every store: it resolves the
    balance [b], returns [b + delta] whatever the sign and size of [delta],
    leaves the expenses table as it was, and rewrites in place, to that
    value, the balance of every (user, today) row of the table the accrual
    left, touching no other row; when a row for today is among them the
    balance resolved afterwards is [b + delta]. *)
Theorem add_to_budget_adjusts s u today (delta : A) :
  let (b, s1) := get_balance today u s in
  let (r, s2) := add_to_budget today u delta s in
  r = add b delta /\
  expenses s2 = expenses s /\
  balances s2 = List.map (set_balance_at u today (add b delta)) (balances s1) /\
  List.length (balances s2) = List.length (balances s1) /\
  (forall row, In row (balances s2) -> balance_at u today row = true ->
     b_balance row = add b delta) /\
  (forall row, In row (balances s2) -> balance_at u today row = false ->
     In row (balances s1)) /\
  (first_balance_at u today s1 <> None -> get_balance today u s2 = (add b delta, s2)).
Proof.
  pose proof (add_to_budget_steps s u today delta) as E.
  pose proof (get_balance_expenses s u today) as He.
  destruct (get_balance today u s) as [b s1]. simpl fst in *. simpl snd in *.
  rewrite E. cbv beta iota.
  split; [reflexivity|]. split; [exact He|].
  split; [reflexivity|]. split; [simpl; apply length_map|].
  split; [apply updated_rows_hold|]. split; [apply other_rows_stay|].
  intros Hrow. destruct (first_balance_at u today s1) as [bt|] eqn:F; [|congruence].
  destruct (first_balance_at_update s1 u today (add b delta) bt F) as [F' Hv].
  simpl snd in F'. now rewrite (get_balance_today _ _ _ _ F'), Hv.
Qed.

(** ** Posting *)

(** C2, as amended. When a snapshot for (user, today) exists or the user
    has none dated after today, two postings in a row return [b - a1] and
    [(b - a1) - a2] for the balance [b] resolved before, the balance
    resolved afterwards is [(b - a1) - a2] with no row added, the expenses
    table gains exactly the two rows posted, and every snapshot row for
    (user, today) holds that value: one row, unless the store held several
    for the day, which stay as many. *)
Theorem two_expenses_settle s u today (a1 a2 : A) c1 c2 :
  first_balance_at u today s <> None \/ no_later_snapshot u today s = true ->
  let balance_before := fst (get_balance today u s) in
  let (r1, s1) := add_expense today u a1 c1 s in
  let (r2, s2) := add_expense today u a2 c2 s1 in
  r1 = sub balance_before a1 /\
  r2 = sub (sub balance_before a1) a2 /\
  get_balance today u s2 = (sub (sub balance_before a1) a2, s2) /\
  expenses s2 = (expenses s ++
    [{| e_id := Z.of_nat (List.length (expenses s)) + 1; e_user_id := u;
        e_amount := a1; e_date := today; e_category := c1 |};
     {| e_id := Z.of_nat (List.length (expenses s ++ [
                 {| e_id := Z.of_nat (List.length (expenses s)) + 1; e_user_id := u;
                    e_amount := a1; e_date := today; e_category := c1 |}])) + 1;
        e_user_id := u; e_amount := a2; e_date := today; e_category := c2 |}])%list /\
  List.length (expenses_at u today s2) = (List.length (expenses_at u today s) + 2)%nat /\
  rows_matched u today s2 = Nat.max 1 (rows_matched u today s) /\
  (forall b, In b (balances s2) -> balance_at u today b = true ->
     b_balance b = sub (sub balance_before a1) a2).
Proof.
  intros Hrow bb.
  destruct (get_balance_row s u today Hrow) as (bt & Hbt & Hv).
  pose proof (get_balance_rows s u today Hrow) as Hone.
  pose proof (get_balance_expenses s u today) as Hexp.
  pose proof (add_expense_steps s u today a1 c1) as E1. fold bb in E1, Hv.
  set (g := snd (get_balance today u s)) in *.
  set (p1 := snd (session_add_expense u a1 today c1 g)) in *.
  destruct (first_balance_at_update p1 u today (sub bb a1) bt Hbt) as [F1 V1].
  rewrite E1.
  set (s1 := snd (update_balance today u (sub bb a1) p1)) in *.
  destruct (add_expense_settled s1 u today a2 c2 _ F1) as (E2 & F2 & V2).
  rewrite V1 in E2, F2, V2. cbv beta iota. rewrite E2. cbv beta iota.
  set (p2 := snd (session_add_expense u a2 today c2 s1)) in *.
  set (s2 := snd (update_balance today u (sub (sub bb a1) a2) p2)) in *.
  assert (F2' : first_balance_at u today s2
                = Some (set_balance_at u today (sub (sub bb a1) a2)
                          (set_balance_at u today (sub bb a1) bt))).
  { rewrite E2 in F2. exact F2. }
  split; [reflexivity|]. split; [reflexivity|].
  split; [now rewrite (get_balance_today _ _ _ _ F2'), V2|].
  assert (Hex : expenses s2 = ((expenses s ++
            [{| e_id := Z.of_nat (List.length (expenses s)) + 1; e_user_id := u;
                e_amount := a1; e_date := today; e_category := c1 |}]) ++
            [{| e_id := Z.of_nat (List.length (expenses s ++ [
                 {| e_id := Z.of_nat (List.length (expenses s)) + 1; e_user_id := u;
                    e_amount := a1; e_date := today; e_category := c1 |}])) + 1;
                e_user_id := u; e_amount := a2; e_date := today; e_category := c2 |}])%list).
  { subst s2 p2 s1 p1. simpl. rewrite Hexp. reflexivity. }
  split; [rewrite Hex, <- app_assoc; reflexivity|].
  split.
  { unfold expenses_at. rewrite Hex, !List.filter_app, !length_app. simpl.
    rewrite !Z.eqb_refl. simpl. lia. }
  split.
  { subst s2. rewrite rows_matched_update. subst p2 s1.
    unfold rows_matched in *. simpl. rewrite filter_map_length
      by (intros b; apply balance_at_set). exact Hone. }
  apply updated_rows_hold.
Qed.

(** ** Runs under a clock that never goes back *)

Lemma rows_matched_append s u d (b : Balance A) :
  rows_matched u d (with_snapshot s b)
    = (rows_matched u d s + (if balance_at u d b then 1 else 0))%nat.
Proof.
  unfold rows_matched. simpl. rewrite List.filter_app, length_app. simpl.
  destruct (balance_at u d b); reflexivity.
Qed.

Lemma balance_at_new s u today v u' d :
  balance_at u' d (new_snapshot s u today v) = true -> u' = u /\ d = today.
Proof.
  unfold balance_at. simpl. intros H. apply andb_true_iff in H.
  destruct H as [Hu Hd]. apply Z.eqb_eq in Hu. apply Z.eqb_eq in Hd. now split.
Qed.

Lemma get_balance_ok s u today d0 :
  ledger_ok d0 s -> d0 <= today -> ledger_ok today (snd (get_balance today u s)).
Proof.
  intros [Hdate Hone] Hle.
  assert (Hsame : ledger_ok today s).
  { split; [|exact Hone]. intros b Hb. specialize (Hdate b Hb). lia. }
  destruct (get_balance_cases s u today)
    as [(bt & _ & E) | [(F & v & E & _) | (_ & lb & _ & _ & E)]];
    rewrite E; simpl; trivial.
  split.
  - simpl. intros b Hb. apply in_app_or in Hb. destruct Hb as [Hb|[<-|[]]].
    + specialize (Hdate b Hb). lia.
    + simpl. lia.
  - intros u' d. rewrite rows_matched_append.
    destruct (balance_at u' d (new_snapshot s u today v)) eqn:Hb.
    + apply balance_at_new in Hb. destruct Hb as [-> ->].
      unfold rows_matched, first_balance_at in *.
      rewrite (find_none_filter _ _ F). simpl. lia.
    + specialize (Hone u' d). lia.
Qed.

Lemma rows_matched_update_any s u today v u' d :
  rows_matched u' d (snd (update_balance today u v s)) = rows_matched u' d s.
Proof.
  unfold rows_matched. simpl. apply filter_map_length. intros b.
  unfold set_balance_at. destruct (balance_at u today b); reflexivity.
Qed.

Lemma update_balance_ok s u today v d0 :
  ledger_ok d0 s -> ledger_ok d0 (snd (update_balance today u v s)).
Proof.
  intros [Hdate Hone]. split.
  - simpl. intros b Hb. apply in_map_iff in Hb. destruct Hb as (b0 & <- & Hb0).
    unfold set_balance_at. destruct (balance_at u today b0); simpl; now apply Hdate.
  - intros u' d. rewrite rows_matched_update_any. apply Hone.
Qed.

Lemma run_op_ok s today op d0 :
  ledger_ok d0 s -> d0 <= today -> ledger_ok today (run_op today op s).
Proof.
  intros Hok Hle. pose proof (fun u => get_balance_ok s u today d0 Hok Hle) as Hg.
  destruct op as [u | u amount category | u amount]; simpl.
  - apply Hg.
  - rewrite add_expense_steps. simpl snd at 1. apply update_balance_ok.
    destruct (Hg u) as [H1 H2]. split; [exact H1|]. intros u' d. apply (H2 u' d).
  - rewrite add_to_budget_steps. simpl snd at 1. apply update_balance_ok. apply Hg.
Qed.


Lemma ledger_ok_empty d0 : ledger_ok d0 (@empty_store A).
Proof. split; [intros b [] | intros u d; unfold rows_matched; simpl; lia]. Qed.

Lemma ledger_ok_no_later s u today :
  ledger_ok today s -> no_later_snapshot u today s = true.
Proof.
  intros [Hdate _]. apply no_later_snapshot_spec. intros b Hb _. now apply Hdate.
Qed.


End LedgerFacts.

(** ** The same statements on concrete ledgers *)


Lemma get_balance_idempotent_witness :
  get_balance 10 7 ex_skew = (5000%Q, ex_skew).
Proof.
  destruct (get_balance_idempotent ex_skew 7 10) as [_ H].
  apply (H (snapshot 1 7 11 5000)); [reflexivity | reflexivity | simpl; lia].
Defined.

(** C5 fails at a snapshot dated after today. On 10 March, with the only
    snapshot of user 7 dated 11 March, [get_balance] returns that
    snapshot's 5000 by its [days_passed <= 0] branch and writes nothing;
    the UPDATE of [add_expense] then runs on a table with no row for
    (7, 10 March): the expense of 100 is stored, 4900 is returned, and the
    balance resolved afterwards is 5000 as before. *)
Lemma update_misses_after_skew :
  get_balance march_10 7 fl_skew = (float_of_Z 5000, fl_skew) /\
  rows_matched 7 march_10
    (snd (session_add_expense 7 (float_of_Z 100) march_10 (Some "Прочее")
            (snd (get_balance march_10 7 fl_skew)))) = 0%nat /\
  add_expense march_10 7 (float_of_Z 100) (Some "Прочее") fl_skew
    = (float_of_Z 4900,
       {| expenses := [fexpense 1 7 100 march_10 (Some "Прочее")];
          balances := balances fl_skew |}) /\
  fst (get_balance march_10 7
         (snd (add_expense march_10 7 (float_of_Z 100) (Some "Прочее") fl_skew)))
    = float_of_Z 5000.
Proof. vm_compute. repeat split. Qed.

(** C7 fails on the same ledger: [add_to_budget] returns 5100, its UPDATE
    finds no row for (7, 10 March), the store is what it was, and the
    balance resolved afterwards is 5000. *)
Lemma add_to_budget_misses_after_skew :
  add_to_budget march_10 7 (float_of_Z 100) fl_skew = (float_of_Z 5100, fl_skew) /\
  rows_matched 7 march_10 (snd (get_balance march_10 7 fl_skew)) = 0%nat /\
  fst (get_balance march_10 7 (snd (add_to_budget march_10 7 (float_of_Z 100) fl_skew)))
    = float_of_Z 5000.
Proof. vm_compute. repeat split. Qed.

(** C2 as stated fails. On a day on which the user already has an expense,
    two postings of 100 and 50 bring the balance from 1500 to 1350 and
    leave three expense rows for the day, not two; and on a ledger with
    two snapshots for the day they leave both, each holding 1850. *)
Lemma two_expenses_three_rows :
  (let s2 := snd (add_expense march_10 7 (float_of_Z 50) None
                    (snd (add_expense march_10 7 (float_of_Z 100) None fl_spent))) in
   fst (get_balance march_10 7 fl_spent) = float_of_Z 1500 /\
   fst (get_balance march_10 7 s2) = float_of_Z 1350 /\
   List.length (expenses_at 7 march_10 s2) = 3%nat)
  /\
  (let s2 := snd (add_expense march_10 7 (float_of_Z 50) None
                    (snd (add_expense march_10 7 (float_of_Z 100) None fl_duplicate))) in
   fst (get_balance march_10 7 fl_duplicate) = float_of_Z 2000 /\
   fst (get_balance march_10 7 s2) = float_of_Z 1850 /\
   rows_matched 7 march_10 s2 = 2%nat).
Proof. vm_compute. repeat split. Qed.


(** With a snapshot for today and one dated tomorrow, two postings of 100
    and 50 settle at 1850 on today's one row. *)
Lemma two_expenses_settle_witness :
  get_balance march_10 7
    (snd (add_expense march_10 7 (float_of_Z 50) None
            (snd (add_expense march_10 7 (float_of_Z 100) None fl_both))))
  = (float_of_Z 1850,
     {| expenses := [fexpense 1 7 100 march_10 None; fexpense 2 7 50 march_10 None];
        balances := [fsnapshot 1 7 march_10 1850; fsnapshot 2 7 (march_10 + 1) 4000] |}).
Proof.
  assert (Hrow : first_balance_at 7 march_10 fl_both <> None \/
                 no_later_snapshot 7 march_10 fl_both = true) by (left; discriminate).
  pose proof (two_expenses_settle fl_both 7 march_10 (float_of_Z 100) (float_of_Z 50)
                None None Hrow) as H.
  vm_compute in H. destruct H as (_ & _ & H & _). exact H.
Defined.

(** ** Reports and handlers *)

Section ReportFacts.

Context {A : Type} {num : Num A}.

Implicit Types (s : Store A) (bot : Bot A) (u today : Z).

Lemma dict_get_set {K} `{EqDecision K} {V} (k k' : K) (v : V) (d : list (K * V)) :
  dict_get k' (dict_set k v d) = if decide (k = k') then Some v else dict_get k' d.
Proof.
  induction d as [|[k0 v0] d IH]; simpl.
  - destruct (decide (k = k')); reflexivity.
  - destruct (decide (k0 = k)) as [->|Hne]; simpl.
    + destruct (decide (k = k')); reflexivity.
    + destruct (decide (k0 = k')) as [->|Hne'].
      * destruct (decide (k = k')); [congruence | reflexivity].
      * exact IH.
Qed.

Lemma in_insert_by {X} (key : X -> date) (x y : X) (l : list X) :
  In y (insert_by key x l) <-> y = x \/ In y l.
Proof.
  induction l as [|z l IH]; simpl; [intuition congruence|].
  destruct (key x <=? key z); simpl; [intuition congruence|].
  rewrite IH. intuition congruence.
Qed.

Lemma in_order_by {X} (key : X -> date) (y : X) (l : list X) :
  In y (order_by key l) <-> In y l.
Proof.
  induction l as [|x l IH]; simpl; [reflexivity|].
  rewrite in_insert_by, IH. intuition congruence.
Qed.

Lemma in_weekly_balance_rows s u start d v :
  In (d, v) (weekly_balance_rows start u s) <->
  exists b, In b (balances s) /\ b_user_id b = u /\ start <= b_date b /\
            b_date b = d /\ b_balance b = v.
Proof.
  unfold weekly_balance_rows. rewrite in_order_by, in_map_iff. split.
  - intros (b & E & Hb). apply filter_In in Hb. destruct Hb as [Hb F].
    unfold balance_since in F. apply andb_true_iff in F. destruct F as [Fu Fd].
    apply Z.eqb_eq in Fu. apply Z.leb_le in Fd. injection E as <- <-.
    exists b. repeat split; trivial.
  - intros (b & Hb & Hu & Hs & <- & <-). exists b. split; [reflexivity|].
    apply filter_In. split; [trivial|]. unfold balance_since.
    apply andb_true_iff. split; [now apply Z.eqb_eq | now apply Z.leb_le].
Qed.

Lemma get_weekly_stats_eq s u today :
  get_weekly_stats today u s =
    (weekly_daily_stats today u s, weekly_balances today u s,
     py_sum (List.map (fun cats => py_sum (dict_values cats))
               (dict_values (weekly_daily_stats today u s))),
     s).
Proof. reflexivity. Qed.

Lemma in_session_read {X} (c : DB X) bot x :
  c (store bot) = (x, store bot) -> in_session c bot = (x, bot).
Proof. unfold in_session. intros ->. now destruct bot. Qed.

Lemma prefix_cat data :
  String.prefix "cat_" data = true ->
  exists category, data = "cat_" ++ category /\ cut "_" data = ("cat", Some category).
Proof.
  intros H.
  do 4 (destruct data as [|? data]; simpl in H; [discriminate|];
        match type of H with
        | (if ?c then _ else _) = true => destruct c as [<-|]; [|discriminate]
        end).
  exists data. split; reflexivity.
Qed.

(** C9. A category chosen while the user has no pending amount: the handler
    ends normally, its only reply is the "no pending amount" alert, and the
    store, the pending amounts and the awaiting set are what they were. *)
Theorem category_without_pending bot u today data :
  String.prefix "cat_" data = true ->
  pending_expenses bot !! u = None ->
  handle_category today u data bot = Done bot [NoPendingAmount] /\
  dispatch today (Callback u data) bot = Done bot [NoPendingAmount].
Proof.
  intros Hp Hnone.
  assert (E : handle_category today u data bot = Done bot [NoPendingAmount]).
  { destruct (prefix_cat data Hp) as (category & _ & Hcut).
    unfold handle_category. rewrite Hcut, Hnone. simpl.
    rewrite (delete_id _ _ Hnone). now destruct bot. }
  split; [exact E|]. unfold dispatch. now rewrite Hp.
Qed.

End ReportFacts.

Lemma category_without_pending_witness :
  dispatch 4 (Callback 7 "cat_Прочее")
    {| store := ex_day1; pending_expenses := ∅; awaiting_budget_add := ∅ |}
  = Done {| store := ex_day1; pending_expenses := ∅; awaiting_budget_add := ∅ |}
      [NoPendingAmount].
Proof.
  apply (category_without_pending
    {| store := ex_day1; pending_expenses := ∅; awaiting_budget_add := ∅ |} 7 4);
    reflexivity.
Defined.

(** ** The day report's balance against the accrual engine *)

Section FallbackFacts.

Context {A : Type} {num : Num A}.

(** Subtracting the integer zero returns the amount: so it is for
    rationals, and for binary floating point. *)
Hypothesis sub_zero : forall x : A, sub x (of_int 0) = x.

Implicit Types (s : Store A) (u today : Z).

Lemma day_report_balance_reads s u today :
  snd (day_report_balance today u s) = s.
Proof.
  unfold day_report_balance, bind, db_select.
  destruct (first_balance_at u today s); reflexivity.
Qed.

Lemma day_report_balance_today s u today bt :
  first_balance_at u today s = Some bt ->
  fst (day_report_balance today u s) = b_balance bt.
Proof.
  intros H. unfold day_report_balance, bind, db_select. now rewrite H.
Qed.

Lemma day_report_balance_restored s u today :
  first_balance_at u today s = None ->
  expenses_at u today s = [] ->
  fst (day_report_balance today u s) =
    match last_balance_of u s with
    | Some lb => add (b_balance lb) (of_int ((today - b_date lb) * DAILY_LIMIT))
    | None => of_int DAILY_LIMIT
    end.
Proof.
  intros H1 He. unfold day_report_balance, bind, db_select. rewrite H1. simpl.
  unfold expenses_at in He. rewrite He. simpl. apply sub_zero.
Qed.

(** C3, as amended. When today's snapshot exists, or the user has neither
    an expense dated today nor a snapshot dated after today, the balance
    the day report computes is the value [get_balance] returns on the same
    store, in any amount arithmetic where subtracting the integer zero
    changes nothing; and the report's computation returns the store it
    was given. *)
Theorem day_report_balance_agrees s u today :
  first_balance_at u today s <> None \/
  (expenses_at u today s = [] /\ no_later_snapshot u today s = true) ->
  fst (day_report_balance today u s) = fst (get_balance today u s) /\
  snd (day_report_balance today u s) = s.
Proof.
  intros H. split; [|apply day_report_balance_reads].
  destruct (first_balance_at u today s) as [bt|] eqn:H1.
  - now rewrite (day_report_balance_today _ _ _ _ H1), (get_balance_today _ _ _ _ H1).
  - destruct H as [H|[He Hn]]; [congruence|].
    rewrite (day_report_balance_restored _ _ _ H1 He).
    destruct (last_balance_of u s) as [lb|] eqn:H2.
    + pose proof (last_balance_of_some _ _ _ H2) as (Hin & Hu & _).
      rewrite no_later_snapshot_spec in Hn. pose proof (Hn lb Hin Hu) as Hle.
      rewrite first_balance_at_none in H1.
      assert (Hne : b_date lb <> today) by (intros E; now apply (H1 lb Hin)).
      rewrite (get_balance_catch_up s u today lb); [reflexivity | | trivial | lia].
      now apply first_balance_at_none.
    + now rewrite (get_balance_first _ _ _ H1 H2).
Qed.

End FallbackFacts.

Lemma Q_sub_zero (x : Q) : sub x (of_int 0) = x.
Proof.
  destruct x as [n d]. simpl. unfold Qminus, Qplus. simpl.
  f_equal; [lia | apply Pos.mul_1_r].
Qed.

Lemma day_report_balance_agrees_witness :
  fst (day_report_balance 4 7 ex_day1) = fst (get_balance 4 7 ex_day1) /\
  snd (day_report_balance 4 7 ex_day1) = ex_day1.
Proof.
  apply (day_report_balance_agrees Q_sub_zero ex_day1 7 4).
  right. split; reflexivity.
Defined.

(** C3 as stated fails. With an expense dated today and no snapshot for
    today the report subtracts the expense from the caught-up value that
    [get_balance] returns whole; with a snapshot dated tomorrow the report
    adds minus one day of allowance to the value [get_balance] returns
    as it is. *)
Lemma day_report_balance_differs :
  (fst (get_balance 10 7 ex_unsettled) = 3000%Q /\
   fst (day_report_balance 10 7 ex_unsettled) = 2900%Q /\
   ~ (2900 == 3000)%Q)
  /\
  (fst (get_balance 10 7 ex_skew) = 5000%Q /\
   fst (day_report_balance 10 7 ex_skew) = 3000%Q /\
   ~ (3000 == 5000)%Q).
Proof. vm_compute. repeat split; intros H; discriminate H. Qed.

(** ** The amount filter *)

Section InputFacts.

Context {A : Type} {num : Num A}.

Implicit Types (bot : Bot A) (u today : Z).









(** From an accepted text to the posting: the amount waits under the
    user's id until a category arrives, and [add_expense] receives it. *)
Lemma posting_pipeline bot u today text (a : A) category :
  u ∉ awaiting_budget_add bot ->
  amount_regexp text = true ->
  float_of_text text = Some a ->
  let bot1 := {| store := store bot;
                 pending_expenses := <[u := a]> (pending_expenses bot);
                 awaiting_budget_add := awaiting_budget_add bot |} in
  dispatch today (Message u text) bot = Done bot1 [ChooseCategory] /\
  dispatch today (Callback u ("cat_" ++ category)) bot1 =
    Done {| store := snd (add_expense today u a (Some category) (store bot));
            pending_expenses := delete u (<[u := a]> (pending_expenses bot));
            awaiting_budget_add := awaiting_budget_add bot |}
         [Spent a category (fst (add_expense today u a (Some category) (store bot)));
          CallbackAnswered].
Proof.
  intros Hu Hre Hparse bot1. split.
  - unfold dispatch. destruct (String.eqb_spec text "/start") as [->|_];
      [discriminate Hre|].
    rewrite Hre. unfold handle_amount.
    destruct (decide (u ∈ awaiting_budget_add bot)); [contradiction|].
    now rewrite Hparse.
  - change ("cat_" ++ category)
      with (String "c" (String "a" (String "t" (String "_" category)))).
    unfold dispatch.
    assert (Hp : String.prefix "cat_"
                   (String "c" (String "a" (String "t" (String "_" category)))) = true).
    { simpl. repeat (destruct (ascii_dec _ _); [|congruence]).
      destruct category; reflexivity. }
    rewrite Hp. unfold handle_category.
    replace (cut "_" (String "c" (String "a" (String "t" (String "_" category)))))
      with ("cat", Some category) by reflexivity.
    unfold bot1. simpl. rewrite lookup_insert_eq. unfold in_session. simpl.
    destruct (add_expense today u a (Some category) (store bot)). reflexivity.
Qed.

End InputFacts.

(** ** The laws of the program's floats *)

Lemma float_zero : float_of_Z 0 = PrimFloat.zero.
Proof. reflexivity. Qed.

Lemma Prim2SF_zero : FloatOps.Prim2SF PrimFloat.zero = SpecFloat.S754_zero false.
Proof. reflexivity. Qed.

(** [x - 0 = x], the sign of a zero included. *)
Lemma float_sub_zero (x : PrimFloat.float) : sub x (of_int 0) = x.
Proof.
  apply FloatAxioms.Prim2SF_inj. simpl sub. simpl of_int.
  rewrite FloatAxioms.sub_spec, float_zero, Prim2SF_zero.
  unfold FloatAxioms.SF64sub.
  destruct (FloatOps.Prim2SF x) as [[|]| | |]; reflexivity.
Qed.



(** *** Adding zero *)

Section FloatSums.

Import SpecFloat.













End FloatSums.

(** ** Negative amounts *)

Section NegativeFacts.

Context {A : Type} {num : Num A}.

(** Subtracting a negative amount adds its absolute value: so it is, bit
    for bit, in binary64 ([float_sub_neg]). *)
Hypothesis sub_neg : forall x a : A, is_nonneg a = false -> sub x a = add x (num_abs a).


End NegativeFacts.



(** ** Sums and groups of exact amounts *)

Section ExactSums.

Implicit Types (s : Store Q) (u today : Z).

Lemma fold_left_qsum (xs : list Q) (a : Q) :
  (fold_left Qplus xs a == a + qsum xs)%Q.
Proof.
  revert a. induction xs as [|x xs IH]; simpl; intros a; [ring|].
  rewrite IH. ring.
Qed.

(** *** GROUP BY keeps the total and yields each key once *)

Section Groups.

Context {K : Type} `{EqDecision K}.

Lemma group_add_total (k : K) (v : Q) (acc : list (K * Q)) :
  (qsum (List.map snd (group_add k v acc)) == qsum (List.map snd acc) + v)%Q.
Proof.
  induction acc as [|[k0 v0] acc IH]; simpl; [ring|].
  destruct (decide (k0 = k)); simpl; [ring | rewrite IH; ring].
Qed.

Lemma group_add_keys (k k' : K) (v : Q) (acc : list (K * Q)) :
  In k' (List.map fst (group_add k v acc)) <-> k' = k \/ In k' (List.map fst acc).
Proof.
  induction acc as [|[k0 v0] acc IH]; simpl; [intuition congruence|].
  destruct (decide (k0 = k)) as [->|Hne]; simpl; [intuition congruence|].
  rewrite IH. intuition congruence.
Qed.

Lemma group_add_nodup (k : K) (v : Q) (acc : list (K * Q)) :
  List.NoDup (List.map fst acc) -> List.NoDup (List.map fst (group_add k v acc)).
Proof.
  induction acc as [|[k0 v0] acc IH]; simpl; intros H.
  - constructor; [intros [] | constructor].
  - apply List.NoDup_cons_iff in H. destruct H as [Hnot Hnd].
    destruct (decide (k0 = k)) as [->|Hne]; simpl.
    + now constructor.
    + constructor; [|now apply IH].
      rewrite group_add_keys. intros [E|Hin]; [congruence | contradiction].
Qed.

Lemma group_fold_total (rows acc : list (K * Q)) :
  (qsum (List.map snd
           (fold_left (fun acc kv => group_add (fst kv) (snd kv) acc) rows acc))
   == qsum (List.map snd acc) + qsum (List.map snd rows))%Q.
Proof.
  revert acc. induction rows as [|[k v] rows IH]; simpl; intros acc; [ring|].
  rewrite IH, group_add_total. ring.
Qed.

Lemma group_fold_keys (rows acc : list (K * Q)) :
  List.NoDup (List.map fst acc) ->
  List.NoDup (List.map fst
           (fold_left (fun acc kv => group_add (fst kv) (snd kv) acc) rows acc)) /\
  (forall k,
     In k (List.map fst
             (fold_left (fun acc kv => group_add (fst kv) (snd kv) acc) rows acc)) ->
     In k (List.map fst acc) \/ In k (List.map fst rows)).
Proof.
  revert acc. induction rows as [|[k v] rows IH]; simpl; intros acc H.
  - split; [exact H | now left].
  - destruct (IH _ (group_add_nodup k v acc H)) as [Hnd Hin]. split; [exact Hnd|].
    intros k' Hk'. destruct (Hin k' Hk') as [Hacc|Hrows]; [|now right; right].
    apply group_add_keys in Hacc. destruct Hacc as [->|Hacc]; [right; now left | now left].
Qed.

Lemma group_sum_total (rows : list (K * Q)) :
  (qsum (List.map snd (group_sum rows)) == qsum (List.map snd rows))%Q.
Proof. unfold group_sum. rewrite group_fold_total. simpl. ring. Qed.

Lemma group_sum_nodup (rows : list (K * Q)) :
  List.NoDup (List.map fst (group_sum rows)).
Proof. apply group_fold_keys. constructor. Qed.

End Groups.

(** *** ORDER BY permutes the rows *)



End ExactSums.

(** ** What the day report subtracts *)

Lemma sql_sum_qsum (xs : list Q) :
  (match sql_sum xs with
   | Some v => if is_zero v then of_int 0 else v
   | None => of_int 0
   end == qsum xs)%Q.
Proof.
  destruct xs as [|x r]; simpl; [reflexivity|].
  assert (E : (fold_left Qplus r x == x + qsum r)%Q) by apply fold_left_qsum.
  destruct (Qeq_bool (fold_left Qplus r x) 0) eqn:Z; [|exact E].
  apply Qeq_bool_eq in Z. rewrite <- E, Z. reflexivity.
Qed.

(** X3. On a day with no snapshot for the user and none dated later, the
    balance of the day report is the balance [get_balance] would return
    less the sum of the user's expenses dated today. *)
Theorem day_report_balance_spent (s : Store Q) (u today : Z) :
  first_balance_at u today s = None ->
  no_later_snapshot u today s = true ->
  (fst (day_report_balance today u s)
   == fst (get_balance today u s) - qsum (List.map e_amount (expenses_at u today s)))%Q.
Proof.
  intros H1 Hn.
  assert (E : fst (day_report_balance today u s)
              = sub (match last_balance_of u s with
                     | Some lb =>
                       add (b_balance lb) (of_int ((today - b_date lb) * DAILY_LIMIT))
                     | None => of_int DAILY_LIMIT
                     end)
                    (match sql_sum (List.map e_amount (expenses_at u today s)) with
                     | Some v => if is_zero v then of_int 0 else v
                     | None => of_int 0
                     end)).
  { unfold day_report_balance, bind, db_select. now rewrite H1. }
  rewrite E. simpl sub. rewrite sql_sum_qsum.
  destruct (last_balance_of u s) as [lb|] eqn:H2.
  - pose proof (last_balance_of_some _ _ _ H2) as (Hin & Hu & _).
    rewrite no_later_snapshot_spec in Hn. pose proof (Hn lb Hin Hu) as Hle.
    pose proof H1 as H1'. rewrite first_balance_at_none in H1'.
    assert (Hne : b_date lb <> today) by (intros Ed; now apply (H1' lb Hin)).
    rewrite (get_balance_catch_up s u today lb H1 H2) by lia. reflexivity.
  - rewrite (get_balance_first _ _ _ H1 H2). reflexivity.
Qed.

(** ** The specification's scenarios *)

(** 15 March 2024 is day 738960; the first of its month is day 738946, and
    the day before 1 March of a leap year is the 29th. *)
Example replace_day_1_march :
  day_of_month 738960 = 15 /\ replace_day_1 738960 = 738946 /\
  day_of_month (738946 - 1) = 29.
Proof. vm_compute. repeat split. Qed.

(** A fresh user posts 500 on day 1: the balance resolves to 2000, then to
    1500, which is the snapshot of day 1; three days later it resolves to
    7500. *)
Example scenario_groceries :
  fst (get_balance 1 7 (@empty_store Q)) = 2000%Q /\
  add_expense 1 7 500%Q (Some "Groceries") empty_store = (1500%Q, ex_day1) /\
  fst (get_balance 4 7 ex_day1) = 7500%Q.
Proof. vm_compute. repeat split. Qed.

(** A budget of 2000 adjusted by -2500 becomes -500, reported as a decrease
    by 2500; no expense row is written. *)
Example scenario_overdraft :
  dispatch 1 (Message 7 "-2500")
    {| store := @snd Q _ (get_balance 1 7 empty_store);
       pending_expenses := ∅; awaiting_budget_add := {[7]} |}
  = Done {| store := {| expenses := []; balances := [snapshot 1 7 1 (-500)] |};
            pending_expenses := ∅; awaiting_budget_add := {[7]} ∖ {[7]} |}
      [BudgetChanged "уменьшен" 2500%Q (-500)%Q].
Proof. reflexivity. Qed.

(** What the amount filter lets through, and what it does not. *)
Example amount_regexp_cases :
  amount_regexp "-12.50" = true /\ amount_regexp "007" = true /\
  amount_regexp "12." = false /\ amount_regexp ".5" = false /\
  amount_regexp "-" = false /\ amount_regexp "1.2.3" = false /\
  amount_regexp "1e5" = false /\ amount_regexp "/start" = false /\
  @float_of_text Q _ "-12.50" = Some (Qmake (-1250) 100).
Proof. vm_compute. repeat split. Qed.

(** An unknown period passes the callback filter and fails on the lookup
    of its name. *)
Example stats_unknown_period :
  dispatch 1 (Callback 7 "stats_year")
    {| store := @empty_store Q; pending_expenses := ∅; awaiting_budget_add := ∅ |}
  = Raised (KeyError "year")
      {| store := empty_store; pending_expenses := ∅; awaiting_budget_add := ∅ |} [].
Proof. reflexivity. Qed.

Lemma day_report_balance_spent_witness :
  Qeq (fst (day_report_balance 10 7 ex_unsettled))
      (Qminus (fst (get_balance 10 7 ex_unsettled))
              (qsum (List.map e_amount (expenses_at 7 10 ex_unsettled)))).
Proof. apply (day_report_balance_spent ex_unsettled 7 10); reflexivity. Defined.

(** * More of the program *)

(** ** Report callbacks *)

Section CallbackFacts.

Context {A : Type} {num : Num A}.

Implicit Types (s : Store A) (bot : Bot A) (u today : Z).

Lemma split_nonempty sep str : split sep str <> [].
Proof.
  induction str as [|c r IH]; simpl; [discriminate|].
  destruct (Ascii.eqb c sep); [discriminate|].
  destruct (split sep r); [contradiction | discriminate].
Qed.

(** Data that passes the [stats_] filter has a second field. *)
Lemma stats_period data :
  String.prefix "stats_" data = true ->
  exists period, nth_error (split "_" data) 1 = Some period.
Proof.
  intros H.
  do 6 (destruct data as [|? data]; simpl in H; [discriminate|];
        match type of H with
        | (if ?c then _ else _) = true => destruct c as [<-|]; [|discriminate]
        end).
  simpl. pose proof (split_nonempty "_" data) as Hne.
  destruct (split "_" data) as [|period rest]; [contradiction|].
  exists period. reflexivity.
Qed.

Lemma day_report_balance_session bot u today :
  in_session (day_report_balance today u) bot
    = (fst (day_report_balance today u (store bot)), bot).
Proof.
  apply in_session_read.
  pose proof (day_report_balance_reads (store bot) u today) as R.
  destruct (day_report_balance today u (store bot)) as [v s']. simpl in R. now subst s'.
Qed.

(** [stats_callback] with its sessions run: what it answers, on the state
    it was given. *)
Lemma stats_callback_steps bot u today data :
  stats_callback today u data bot =
    match nth_error (split "_" data) 1 with
    | None => Raised IndexError bot []
    | Some period =>
      if String.eqb period "week" then
        match weekly_daily_stats today u (store bot), weekly_balances today u (store bot) with
        | [], [] => Done bot [WeekNothingFound; CallbackAnswered]
        | daily_stats, found =>
          Done bot [WeekReport
                      (List.map (week_day_lines daily_stats found)
                         (sorted_set (dict_keys daily_stats ++ dict_keys found)))
                      (py_sum (List.map (fun cats => py_sum (dict_values cats))
                                 (dict_values daily_stats)));
                    CallbackAnswered]
        end
      else
        match dict_get period names with
        | None => Raised (KeyError period) bot []
        | Some name =>
          let stats := fst (get_stats today u period (store bot)) in
          let rows := List.map (fun ca => (label (fst ca), snd ca)) stats in
          let total := fold_left (fun total ca => add total (snd ca)) stats (of_int 0) in
          if String.eqb period "day" then
            Done bot [PeriodReport name rows total
                        (Some (fst (day_report_balance today u (store bot))));
                      CallbackAnswered]
          else Done bot [PeriodReport name rows total None; CallbackAnswered]
        end
    end.
Proof.
  unfold stats_callback. destruct (nth_error (split "_" data) 1) as [period|]; [|reflexivity].
  destruct (String.eqb period "week").
  - rewrite (in_session_read _ bot _ (get_weekly_stats_eq (store bot) u today)).
    destruct (weekly_daily_stats today u (store bot)); [|reflexivity].
    destruct (weekly_balances today u (store bot)); reflexivity.
  - rewrite (in_session_read (get_stats today u period) bot
               (fst (get_stats today u period (store bot))) eq_refl).
    destruct (dict_get period names); [|reflexivity].
    destruct (String.eqb period "day"); [|reflexivity].
    now rewrite day_report_balance_session.
Qed.

Lemma names_known period :
  dict_get period names = None <->
  (period <> "day" /\ period <> "week" /\ period <> "month").
Proof.
  unfold names. simpl.
  destruct (decide ("day" = period)) as [<-|H1]; [split; [discriminate | intros (H & _); congruence]|].
  destruct (decide ("week" = period)) as [<-|H2];
    [split; [discriminate | intros (_ & H & _); congruence]|].
  destruct (decide ("month" = period)) as [<-|H3];
    [split; [discriminate | intros (_ & _ & H); congruence]|].
  split; [|reflexivity]. intros _. repeat split; congruence.
Qed.

Lemma stats_callback_reads bot u today data :
  outcome_bot (stats_callback today u data bot) = bot.
Proof.
  rewrite stats_callback_steps.
  destruct (nth_error (split "_" data) 1) as [period|]; [|reflexivity].
  destruct (String.eqb period "week").
  - destruct (weekly_daily_stats today u (store bot)); [|reflexivity].
    destruct (weekly_balances today u (store bot)); reflexivity.
  - destruct (dict_get period names); [|reflexivity].
    simpl. destruct (String.eqb period "day"); reflexivity.
Qed.

(** X4. A report callback writes nothing: whatever the data, the store,
    the pending amounts and the awaiting set come back as they were. Data
    that passed the [stats_] filter always has a period; the periods day,
    week and month are answered; every other period raises KeyError with
    no reply sent. *)
Theorem stats_callback_answers bot u today data :
  outcome_bot (stats_callback today u data bot) = bot /\
  (String.prefix "stats_" data = true ->
   exists period, nth_error (split "_" data) 1 = Some period) /\
  (forall period,
     nth_error (split "_" data) 1 = Some period ->
     (period = "day" \/ period = "week" \/ period = "month" ->
      exists out, stats_callback today u data bot = Done bot out) /\
     (period <> "day" -> period <> "week" -> period <> "month" ->
      stats_callback today u data bot = Raised (KeyError period) bot [])).
Proof.
  split; [apply stats_callback_reads|]. rewrite stats_callback_steps.
  split; [apply stats_period|].
  intros period ->. split.
  {
    intros Hp. destruct (String.eqb_spec period "week") as [->|Hw].
    - destruct (weekly_daily_stats today u (store bot)); [|eexists; reflexivity].
      destruct (weekly_balances today u (store bot)); eexists; reflexivity.
    - destruct (dict_get period names) eqn:E.
      + simpl. destruct (String.eqb period "day"); eexists; reflexivity.
      + apply names_known in E. destruct E as (H1 & H2 & H3).
        destruct Hp as [Hp|[Hp|Hp]]; congruence. }
  intros H1 H2 H3. destruct (String.eqb_spec period "week") as [Hw|_]; [congruence|].
  now rewrite (proj2 (names_known period) (conj H1 (conj H2 H3))).
Qed.

End CallbackFacts.

Lemma stats_callback_answers_witness :
  stats_callback 4 7 "stats_month"
    {| store := ex_day1; pending_expenses := ∅; awaiting_budget_add := ∅ |}
  = Done {| store := ex_day1; pending_expenses := ∅; awaiting_budget_add := ∅ |}
      [PeriodReport "месяц" [("Groceries", 500%Q)] 500%Q None; CallbackAnswered].
Proof.
  destruct (stats_callback_answers
              {| store := ex_day1; pending_expenses := ∅; awaiting_budget_add := ∅ |}
              7 4 "stats_month") as (_ & _ & H).
  destruct (H "month" eq_refl) as [Hdone _].
  destruct (Hdone (or_intror (or_intror eq_refl))) as (out & E).
  rewrite E. f_equal. vm_compute in E. now injection E as <-.
Defined.

(** ** Conversations *)

Section FlowFacts.

Context {A : Type} {num : Num A}.

Implicit Types (s : Store A) (bot : Bot A) (u today : Z).

Lemma add_to_budget_expenses s u today (a : A) :
  expenses (snd (add_to_budget today u a s)) = expenses s.
Proof. rewrite add_to_budget_steps. simpl. apply get_balance_expenses. Qed.

Lemma accepted_is_not_start text : amount_regexp text = true -> String.eqb text "/start" = false.
Proof.
  intros H. destruct (String.eqb_spec text "/start") as [->|_]; [discriminate H | reflexivity].
Qed.

(** A category callback for a user with no pending amount. *)
Lemma category_callback_idle bot u today category :
  pending_expenses bot !! u = None ->
  dispatch today (Callback u ("cat_" ++ category)) bot = Done bot [NoPendingAmount].
Proof.
  intros Hnone.
  change ("cat_" ++ category)
    with (String "c" (String "a" (String "t" (String "_" category)))).
  unfold dispatch.
  assert (Hp : String.prefix "cat_"
                 (String "c" (String "a" (String "t" (String "_" category)))) = true).
  { simpl. repeat (destruct (ascii_dec _ _); [|congruence]).
    destruct category; reflexivity. }
  rewrite Hp. unfold handle_category.
  replace (cut "_" (String "c" (String "a" (String "t" (String "_" category)))))
    with ("cat", Some category) by reflexivity.
  simpl. rewrite Hnone, (delete_id _ _ Hnone). now destruct bot.
Qed.

(** X5. After the "add to budget" button, the next number the user sends
    adjusts the budget by that number, whatever its sign: the reply carries
    the resolved balance plus the number, no expense is written, the
    pending amounts stay, and the user leaves the awaiting set while the
    other users keep their place in it. The number after that is an
    expense waiting for its category again. *)
Theorem budget_button_flow bot u today text (a : A) :
  amount_regexp text = true ->
  float_of_text text = Some a ->
  let bot1 := outcome_bot (dispatch today (Callback u "add_budget") bot) in
  exists bot2,
    dispatch today (Message u text) bot1
      = Done bot2 [BudgetChanged (if is_nonneg a then "пополнен" else "уменьшен")
                     (num_abs a) (add (fst (get_balance today u (store bot))) a)] /\
    store bot2 = snd (add_to_budget today u a (store bot)) /\
    expenses (store bot2) = expenses (store bot) /\
    pending_expenses bot2 = pending_expenses bot /\
    (u ∉ awaiting_budget_add bot2) /\
    (forall u', u' <> u ->
       (u' ∈ awaiting_budget_add bot2 <-> u' ∈ awaiting_budget_add bot)) /\
    (forall text' (a' : A),
       amount_regexp text' = true -> float_of_text text' = Some a' ->
       dispatch today (Message u text') bot2
         = Done {| store := store bot2;
                   pending_expenses := <[u := a']> (pending_expenses bot2);
                   awaiting_budget_add := awaiting_budget_add bot2 |}
             [ChooseCategory]).
Proof.
  intros Hre Hparse.
  change (outcome_bot (dispatch today (Callback u "add_budget") bot))
    with {| store := store bot;
            pending_expenses := pending_expenses bot;
            awaiting_budget_add := {[u]} ∪ awaiting_budget_add bot |}.
  cbv zeta. unfold dispatch at 1. rewrite (accepted_is_not_start _ Hre), Hre.
  unfold handle_amount. simpl awaiting_budget_add.
  destruct (decide (u ∈ {[u]} ∪ awaiting_budget_add bot)); [|exfalso; set_solver].
  rewrite Hparse. unfold in_session. simpl store.
  pose proof (add_to_budget_steps (store bot) u today a) as Es.
  pose proof (add_to_budget_expenses (store bot) u today a) as He.
  destruct (add_to_budget today u a (store bot)) as [nb s2].
  simpl in He. injection Es as -> Es2.
  eexists. split; [reflexivity|]. simpl.
  split; [reflexivity|]. split; [exact He|]. split; [reflexivity|].
  split; [set_solver|]. split; [intros u' Hne; set_solver|].
  intros text' a' Hre' Hparse'.
  unfold dispatch. rewrite (accepted_is_not_start _ Hre'), Hre'.
  unfold handle_amount. simpl awaiting_budget_add.
  destruct (decide (u ∈ ({[u]} ∪ awaiting_budget_add bot) ∖ {[u]})); [set_solver|].
  now rewrite Hparse'.
Qed.

(** X6. Of two amounts sent in a row only the second is posted: the first
    is overwritten in the pending amounts and nothing of it reaches the
    store. The category callback that posts it removes it, so a second
    category callback finds no pending amount and changes nothing. *)
Theorem pending_amount_flow bot u today text1 text2 (a1 a2 : A) category :
  u ∉ awaiting_budget_add bot ->
  amount_regexp text1 = true -> float_of_text text1 = Some a1 ->
  amount_regexp text2 = true -> float_of_text text2 = Some a2 ->
  let bot2 := outcome_bot (dispatch today (Message u text2)
                             (outcome_bot (dispatch today (Message u text1) bot))) in
  let bot3 := outcome_bot (dispatch today (Callback u ("cat_" ++ category)) bot2) in
  store bot2 = store bot /\
  pending_expenses bot2 !! u = Some a2 /\
  dispatch today (Callback u ("cat_" ++ category)) bot2
    = Done bot3 [Spent a2 category
                   (fst (add_expense today u a2 (Some category) (store bot)));
                 CallbackAnswered] /\
  store bot3 = snd (add_expense today u a2 (Some category) (store bot)) /\
  pending_expenses bot3 !! u = None /\
  (forall category',
     dispatch today (Callback u ("cat_" ++ category')) bot3 = Done bot3 [NoPendingAmount]).
Proof.
  intros Hu Hre1 Hp1 Hre2 Hp2.
  destruct (posting_pipeline bot u today text1 a1 category Hu Hre1 Hp1) as [E1 _].
  cbv zeta in *. rewrite E1. cbn [outcome_bot].
  set (bot1 := {| store := store bot;
                  pending_expenses := <[u := a1]> (pending_expenses bot);
                  awaiting_budget_add := awaiting_budget_add bot |}).
  destruct (posting_pipeline bot1 u today text2 a2 category Hu Hre2 Hp2) as [E2 E3].
  cbv zeta in *. rewrite E2. cbn [outcome_bot]. rewrite E3. cbn [outcome_bot store].
  split; [reflexivity|]. split; [apply lookup_insert_eq|].
  split; [reflexivity|]. split; [reflexivity|].
  assert (Hnone : delete u (<[u := a2]> (pending_expenses bot1)) !! u = None)
    by apply lookup_delete_eq.
  split; [exact Hnone|].
  intros category'. now apply category_callback_idle.
Qed.

End FlowFacts.

Lemma budget_button_flow_witness :
  exists bot2,
    dispatch 1 (Message 7 "-2500")
      (outcome_bot (dispatch 1 (Callback 7 "add_budget")
         {| store := @empty_store Q; pending_expenses := ∅; awaiting_budget_add := ∅ |}))
    = Done bot2 [BudgetChanged "уменьшен" 2500%Q (-500)%Q].
Proof.
  assert (Hp : @float_of_text Q _ "-2500" = Some (-2500)%Q) by (vm_compute; reflexivity).
  destruct (budget_button_flow
              {| store := @empty_store Q; pending_expenses := ∅; awaiting_budget_add := ∅ |}
              7 1 "-2500" (-2500)%Q eq_refl Hp) as (bot2 & E & _).
  exists bot2. exact E.
Defined.

Lemma pending_amount_flow_witness :
  store (outcome_bot (dispatch 1 (Callback 7 "cat_Прочее")
          (outcome_bot (dispatch 1 (Message 7 "50")
             (outcome_bot (dispatch 1 (Message 7 "100")
                {| store := @empty_store Q; pending_expenses := ∅;
                   awaiting_budget_add := ∅ |}))))))
  = {| expenses := [expense 1 7 50 1 (Some "Прочее")];
       balances := [snapshot 1 7 1 1950] |}.
Proof.
  assert (Hu : 7 ∉ awaiting_budget_add
                 {| store := @empty_store Q; pending_expenses := ∅;
                    awaiting_budget_add := ∅ |}) by (simpl; set_solver).
  assert (Hp1 : @float_of_text Q _ "100" = Some 100%Q) by (vm_compute; reflexivity).
  assert (Hp2 : @float_of_text Q _ "50" = Some 50%Q) by (vm_compute; reflexivity).
  destruct (pending_amount_flow
              {| store := @empty_store Q; pending_expenses := ∅; awaiting_budget_add := ∅ |}
              7 1 "100" "50" 100%Q 50%Q "Прочее" Hu eq_refl Hp1 eq_refl Hp2)
    as (_ & _ & _ & E & _).
  exact E.
Defined.

(** ** What an event may touch *)

Section FrameFacts.

Context {A : Type} {num : Num A}.

Implicit Types (s : Store A) (bot : Bot A) (u today : Z).

Lemma find_filter {X} (f g : X -> bool) (l : list X) :
  List.find (fun x => f x && g x) l = List.find g (List.filter f l).
Proof.
  induction l as [|x l IH]; simpl; [reflexivity|].
  destruct (f x); simpl; [|exact IH]. destruct (g x); [reflexivity | exact IH].
Qed.

(** The balance resolved for a user depends on that user's rows alone. *)
Lemma get_balance_value s u today :
  fst (get_balance today u s) = resolved_value today (rows_of u s).
Proof.
  unfold get_balance, bind, db_select, resolved_value, first_balance_at, last_balance_of,
    rows_of, balance_at.
  rewrite find_filter.
  destruct (List.find _ _); [reflexivity|].
  destruct (latest _) as [lb|]; [|reflexivity].
  destruct (today - b_date lb <=? 0); reflexivity.
Qed.

Lemma rows_of_append s u' (b : Balance A) :
  b_user_id b <> u' -> rows_of u' (with_snapshot s b) = rows_of u' s.
Proof.
  intros Hne. unfold rows_of. simpl. rewrite List.filter_app. simpl.
  destruct (Z.eqb_spec (b_user_id b) u'); [contradiction | apply app_nil_r].
Qed.

Lemma rows_of_get_balance s u u' today :
  u <> u' -> rows_of u' (snd (get_balance today u s)) = rows_of u' s.
Proof.
  intros Hne.
  destruct (get_balance_cases s u today)
    as [(bt & _ & E) | [(_ & v & E & _) | (_ & lb & _ & _ & E)]];
    rewrite E; simpl; trivial.
  now apply rows_of_append.
Qed.

Lemma filter_map_fixed {X} (f : X -> bool) (g : X -> X) (l : list X) :
  (forall x, f (g x) = f x) -> (forall x, f x = true -> g x = x) ->
  List.filter f (List.map g l) = List.filter f l.
Proof.
  intros Hf Hg. induction l as [|x l IH]; simpl; [reflexivity|].
  rewrite Hf. destruct (f x) eqn:E; [|exact IH]. now rewrite IH, Hg.
Qed.

Lemma rows_of_update s u u' today v :
  u <> u' -> rows_of u' (snd (update_balance today u v s)) = rows_of u' s.
Proof.
  intros Hne. unfold rows_of. simpl. apply filter_map_fixed.
  - intros b. unfold set_balance_at. destruct (balance_at u today b); reflexivity.
  - intros b Hb. apply Z.eqb_eq in Hb. unfold set_balance_at, balance_at.
    destruct (Z.eqb_spec (b_user_id b) u); [congruence | reflexivity].
Qed.

Lemma expenses_of_append s u u' amount d category :
  u <> u' ->
  expenses_of u' (snd (session_add_expense u amount d category s)) = expenses_of u' s.
Proof.
  intros Hne. unfold expenses_of. simpl. rewrite List.filter_app. simpl.
  destruct (Z.eqb_spec u u'); [contradiction | apply app_nil_r].
Qed.

Lemma add_expense_store s u today (amount : A) category :
  snd (add_expense today u amount category s) =
    snd (update_balance today u (sub (fst (get_balance today u s)) amount)
           (snd (session_add_expense u amount today category
                   (snd (get_balance today u s))))).
Proof. now rewrite add_expense_steps. Qed.

Lemma add_to_budget_store s u today (amount : A) :
  snd (add_to_budget today u amount s) =
    snd (update_balance today u (add (fst (get_balance today u s)) amount)
           (snd (get_balance today u s))).
Proof. now rewrite add_to_budget_steps. Qed.

(** A call of one user leaves the rows of every other user as they were. *)
Lemma run_op_frame s today (op : Op A) u' :
  op_user op <> u' ->
  rows_of u' (run_op today op s) = rows_of u' s /\
  expenses_of u' (run_op today op s) = expenses_of u' s.
Proof.
  intros Hne. destruct op as [u | u amount category | u amount]; simpl in *.
  - split; [now apply rows_of_get_balance|].
    unfold expenses_of. now rewrite get_balance_expenses.
  - rewrite add_expense_store. split.
    + rewrite rows_of_update by exact Hne.
      change (rows_of u' (snd (session_add_expense u amount today category
                                 (snd (get_balance today u s)))))
        with (rows_of u' (snd (get_balance today u s))).
      now apply rows_of_get_balance.
    + change (expenses_of u' (snd (update_balance today u
                (sub (fst (get_balance today u s)) amount)
                (snd (session_add_expense u amount today category
                        (snd (get_balance today u s)))))))
        with (expenses_of u' (snd (session_add_expense u amount today category
                                     (snd (get_balance today u s))))).
      rewrite expenses_of_append by exact Hne.
      unfold expenses_of. now rewrite get_balance_expenses.
  - rewrite add_to_budget_store. split.
    + rewrite rows_of_update by exact Hne. now apply rows_of_get_balance.
    + change (expenses_of u' (snd (update_balance today u
                (add (fst (get_balance today u s)) amount)
                (snd (get_balance today u s)))))
        with (expenses_of u' (snd (get_balance today u s))).
      unfold expenses_of. now rewrite get_balance_expenses.
Qed.

(** *** Handlers reach the store through three calls *)

Lemma in_session_store {X} (c : DB X) bot :
  store (snd (in_session c bot)) = snd (c (store bot)) /\
  pending_expenses (snd (in_session c bot)) = pending_expenses bot /\
  awaiting_budget_add (snd (in_session c bot)) = awaiting_budget_add bot.
Proof. unfold in_session. destruct (c (store bot)). repeat split. Qed.

(** Whatever the event, the store afterwards is the store before, or the
    store one call of its user leaves. *)
Lemma dispatch_store today (ev : Event) bot :
  store (outcome_bot (dispatch today ev bot)) = store bot \/
  exists op : Op A,
    op_user op = event_user ev /\
    store (outcome_bot (dispatch today ev bot)) = run_op today op (store bot).
Proof.
  destruct ev as [u text | u data]; unfold dispatch.
  - destruct (String.eqb text "/start").
    + right. exists (Resolve u). split; [reflexivity|]. unfold start_cmd.
      pose proof (in_session_store (get_balance today u) bot) as (Hs & _).
      destruct (in_session (get_balance today u) bot). exact Hs.
    + destruct (amount_regexp text); [|now left]. unfold handle_amount.
      destruct (decide (u ∈ awaiting_budget_add bot)).
      * destruct (float_of_text text) as [a|]; [|now left].
        right. exists (Adjust u a). split; [reflexivity|].
        pose proof (in_session_store (add_to_budget today u a) bot) as (Hs & _).
        destruct (in_session (add_to_budget today u a) bot). exact Hs.
      * destruct (float_of_text text); now left.
  - destruct (String.prefix "cat_" data).
    + unfold handle_category. destruct (snd (cut "_" data)) as [category|]; [|now left].
      destruct (pending_expenses bot !! u) as [a|]; [|now left].
      right. exists (Post u a (Some category)). split; [reflexivity|].
      set (bot1 := {| store := store bot;
                      pending_expenses := delete u (pending_expenses bot);
                      awaiting_budget_add := awaiting_budget_add bot |}).
      pose proof (in_session_store (add_expense today u a (Some category)) bot1) as (Hs & _).
      destruct (in_session (add_expense today u a (Some category)) bot1). exact Hs.
    + destruct (String.eqb data "add_budget"); [now left|].
      destruct (String.prefix "stats_" data); [|now left].
      left. now rewrite stats_callback_reads.
Qed.

(** Whatever the event, the pending amount and the awaiting flag of every
    other user stay. *)
Lemma dispatch_session_state today (ev : Event) bot u' :
  event_user ev <> u' ->
  pending_expenses (outcome_bot (dispatch today ev bot)) !! u' = pending_expenses bot !! u' /\
  (u' ∈ awaiting_budget_add (outcome_bot (dispatch today ev bot)) <->
   u' ∈ awaiting_budget_add bot).
Proof.
  intros Hne. destruct ev as [u text | u data]; simpl in Hne; unfold dispatch.
  - destruct (String.eqb text "/start").
    + unfold start_cmd.
      pose proof (in_session_store (get_balance today u) bot) as (_ & Hp & Ha).
      destruct (in_session (get_balance today u) bot). simpl in *. now rewrite Hp, Ha.
    + destruct (amount_regexp text); [|now split]. unfold handle_amount.
      destruct (decide (u ∈ awaiting_budget_add bot)).
      * destruct (float_of_text text) as [a|]; [|now split].
        pose proof (in_session_store (add_to_budget today u a) bot) as (_ & Hp & Ha).
        destruct (in_session (add_to_budget today u a) bot). simpl in *.
        rewrite Hp, Ha. split; [reflexivity | set_solver].
      * destruct (float_of_text text); [|now split]. simpl.
        split; [now apply lookup_insert_ne | reflexivity].
  - destruct (String.prefix "cat_" data).
    + unfold handle_category. destruct (snd (cut "_" data)) as [category|]; [|now split].
      destruct (pending_expenses bot !! u) as [a|].
      * set (bot1 := {| store := store bot;
                        pending_expenses := delete u (pending_expenses bot);
                        awaiting_budget_add := awaiting_budget_add bot |}).
        pose proof (in_session_store (add_expense today u a (Some category)) bot1)
          as (_ & Hp & Ha).
        destruct (in_session (add_expense today u a (Some category)) bot1). simpl in *.
        rewrite Hp, Ha. split; [now apply lookup_delete_ne | reflexivity].
      * simpl. split; [now apply lookup_delete_ne | reflexivity].
    + destruct (String.eqb data "add_budget").
      * simpl. split; [reflexivity | set_solver].
      * destruct (String.prefix "stats_" data); [|now split].
        now rewrite stats_callback_reads.
Qed.

(** X7. Users are isolated. Whatever one user sends, every other user
    keeps the same snapshot rows and expense rows, the same resolved
    balance on every day, the same pending amount and the same place in
    the awaiting set. *)
Theorem users_are_isolated today (ev : Event) bot u' :
  event_user ev <> u' ->
  let bot' := outcome_bot (dispatch today ev bot) in
  rows_of u' (store bot') = rows_of u' (store bot) /\
  expenses_of u' (store bot') = expenses_of u' (store bot) /\
  (forall d, fst (get_balance d u' (store bot')) = fst (get_balance d u' (store bot))) /\
  pending_expenses bot' !! u' = pending_expenses bot !! u' /\
  (u' ∈ awaiting_budget_add bot' <-> u' ∈ awaiting_budget_add bot).
Proof.
  intros Hne bot'.
  assert (Hrows : rows_of u' (store bot') = rows_of u' (store bot) /\
                  expenses_of u' (store bot') = expenses_of u' (store bot)).
  { destruct (dispatch_store today ev bot) as [E | (op & Hu & E)]; unfold bot'; rewrite E.
    - now split.
    - apply run_op_frame. congruence. }
  destruct Hrows as [Hr He]. split; [exact Hr|]. split; [exact He|].
  split; [intros d; now rewrite !get_balance_value, Hr|].
  now apply dispatch_session_state.
Qed.

End FrameFacts.

Lemma users_are_isolated_witness :
  fst (get_balance 4 8
         (store (outcome_bot (dispatch 4 (Callback 7 "cat_Прочее")
            {| store := ex_day1; pending_expenses := {[7 := 100%Q]};
               awaiting_budget_add := ∅ |}))))
  = fst (get_balance 4 8 ex_day1).
Proof.
  assert (Hne : event_user (Callback 7 "cat_Прочее") <> 8) by (simpl; lia).
  exact (proj1 (proj2 (proj2
           (users_are_isolated 4 (Callback 7 "cat_Прочее")
              {| store := ex_day1; pending_expenses := {[7 := 100%Q]};
                 awaiting_budget_add := ∅ |} 8 Hne))) 4).
Defined.

(** ** The ledger only grows *)

Section GrowthFacts.

Context {A : Type} {num : Num A}.

Implicit Types (s : Store A) (bot : Bot A) (u today : Z).

Lemma get_balance_appends s u today :
  exists new,
    balances (snd (get_balance today u s)) = (balances s ++ new)%list /\
    (List.length new <= 1)%nat /\
    (forall b, In b new -> b_user_id b = u /\ b_date b = today).
Proof.
  destruct (get_balance_cases s u today)
    as [(bt & _ & E) | [(_ & v & E & _) | (_ & lb & _ & _ & E)]]; rewrite E; simpl.
  - exists []. rewrite app_nil_r. split; [reflexivity|]. split; [simpl; lia | intros b []].
  - eexists. split; [reflexivity|]. split; [simpl; lia|].
    intros b [<-|[]]. now split.
  - exists []. rewrite app_nil_r. split; [reflexivity|]. split; [simpl; lia | intros b []].
Qed.

Lemma set_balance_at_key u today (v : A) b :
  snapshot_key (set_balance_at u today v b) = snapshot_key b /\
  (balance_at u today b = false -> set_balance_at u today v b = b).
Proof.
  unfold set_balance_at. destruct (balance_at u today b); split; trivial; discriminate.
Qed.

(** What one call does to the two tables. *)
Lemma run_op_appends s today (op : Op A) :
  (exists new,
     expenses (run_op today op s) = (expenses s ++ new)%list /\
     (List.length new <= 1)%nat /\
     (forall e, In e new -> e_user_id e = op_user op /\ e_date e = today)) /\
  (exists new g,
     balances (run_op today op s) = List.map g (balances s ++ new) /\
     (List.length new <= 1)%nat /\
     (forall b, In b new -> b_user_id b = op_user op /\ b_date b = today) /\
     (forall b, snapshot_key (g b) = snapshot_key b /\
                (balance_at (op_user op) today b = false -> g b = b))).
Proof.
  destruct op as [u | u amount category | u amount]; simpl.
  - split.
    + exists []. rewrite app_nil_r, get_balance_expenses.
      split; [reflexivity|]. split; [simpl; lia | intros e []].
    + destruct (get_balance_appends s u today) as (new & E & Hl & Hn).
      exists new, (fun b => b). rewrite E, List.map_id.
      split; [reflexivity|]. split; [exact Hl|]. split; [exact Hn|].
      intros b. now split.
  - rewrite add_expense_store. split.
    + eexists. simpl. rewrite get_balance_expenses. split; [reflexivity|].
      split; [simpl; lia|]. intros e [<-|[]]. now split.
    + destruct (get_balance_appends s u today) as (new & E & Hl & Hn).
      exists new, (set_balance_at u today (sub (fst (get_balance today u s)) amount)).
      simpl. rewrite E. split; [reflexivity|]. split; [exact Hl|]. split; [exact Hn|].
      intros b. apply set_balance_at_key.
  - rewrite add_to_budget_store. split.
    + exists []. simpl. rewrite app_nil_r, get_balance_expenses.
      split; [reflexivity|]. split; [simpl; lia | intros e []].
    + destruct (get_balance_appends s u today) as (new & E & Hl & Hn).
      exists new, (set_balance_at u today (add (fst (get_balance today u s)) amount)).
      simpl. rewrite E. split; [reflexivity|]. split; [exact Hl|]. split; [exact Hn|].
      intros b. apply set_balance_at_key.
Qed.

(** X8. The ledger only grows. Whatever the event, the expenses table
    afterwards is the table before with at most one row appended, of the
    event's user and dated today; the balances table afterwards is the
    table before with at most one such row appended, each row keeping its
    id, user and date, and every row that is not of (user, today) keeping
    its balance too. No handler deletes a row or rewrites an expense. *)
Theorem ledger_only_grows today (ev : Event) bot :
  let u := event_user ev in
  let s := store bot in
  let s' := store (outcome_bot (dispatch today ev bot)) in
  (exists new,
     expenses s' = (expenses s ++ new)%list /\
     (List.length new <= 1)%nat /\
     (forall e, In e new -> e_user_id e = u /\ e_date e = today)) /\
  (exists new g,
     balances s' = List.map g (balances s ++ new) /\
     (List.length new <= 1)%nat /\
     (forall b, In b new -> b_user_id b = u /\ b_date b = today) /\
     (forall b, snapshot_key (g b) = snapshot_key b /\
                (balance_at u today b = false -> g b = b))).
Proof.
  intros u s s'. destruct (dispatch_store today ev bot) as [E | (op & Hu & E)];
    unfold s'; rewrite E.
  - split.
    + exists []. rewrite app_nil_r. split; [reflexivity|].
      split; [simpl; lia | intros e []].
    + exists [], (fun b => b). rewrite app_nil_r, List.map_id.
      split; [reflexivity|]. split; [simpl; lia|]. split; [intros b []|].
      intros b. now split.
  - unfold u. rewrite <- Hu. apply run_op_appends.
Qed.

(** *** Any conversation, under a clock that never goes back *)

Lemma ledger_ok_later s d0 today : ledger_ok d0 s -> d0 <= today -> ledger_ok today s.
Proof.
  intros [H1 H2] Hle. split; [|exact H2]. intros b Hb. specialize (H1 b Hb). lia.
Qed.

Lemma dispatch_ok today (ev : Event) bot d0 :
  ledger_ok d0 (store bot) -> d0 <= today ->
  ledger_ok today (store (outcome_bot (dispatch today ev bot))).
Proof.
  intros Hok Hle. destruct (dispatch_store today ev bot) as [E | (op & _ & E)]; rewrite E.
  - now apply (ledger_ok_later _ d0).
  - now apply (run_op_ok _ _ _ d0).
Qed.

(** X9. Whatever users send and in whatever order, as long as each event
    is handled to its end before the next and the day never decreases,
    the store stays in order: no snapshot is dated after the day of the
    last event, and no (user, day) has two snapshots. *)
Theorem chat_keeps_ledger_in_order (events : list (date * Event)) bot d0 :
  clock_ascends d0 events = true ->
  ledger_ok d0 (store bot) ->
  ledger_ok (clock_end d0 events) (store (run_events events bot)).
Proof.
  revert bot d0. induction events as [|[d ev] rest IH]; simpl; intros bot d0 Hasc Hok;
    [exact Hok|].
  apply andb_true_iff in Hasc. destruct Hasc as [Hle Hasc]. apply Z.leb_le in Hle.
  unfold clock_end in *. simpl. apply IH; [exact Hasc|].
  now apply (dispatch_ok d ev bot d0).
Qed.

End GrowthFacts.

Lemma chat_keeps_ledger_in_order_witness :
  ledger_ok 2
    (store (run_events
              [(1, Message 7 "/start"); (1, Message 7 "100"); (2, Callback 7 "cat_Прочее")]
              {| store := @empty_store Q; pending_expenses := ∅; awaiting_budget_add := ∅ |})).
Proof.
  apply (chat_keeps_ledger_in_order
           [(1, Message 7 "/start"); (1, Message 7 "100"); (2, Callback 7 "cat_Прочее")]
           {| store := @empty_store Q; pending_expenses := ∅; awaiting_budget_add := ∅ |} 1).
  - reflexivity.
  - split; [intros b [] | intros u d; unfold rows_matched; simpl; lia].
Defined.

(** ** The latest snapshot *)

Section LatestFacts.

Lemma latest_snoc {A} (rows : list (Balance A)) (b : Balance A) :
  latest (rows ++ [b]) = later_of (latest rows) b.
Proof. unfold latest. now rewrite fold_left_app. Qed.

Lemma rows_of_own {A} (s : Store A) u (b : Balance A) :
  b_user_id b = u -> rows_of u (with_snapshot s b) = (rows_of u s ++ [b])%list.
Proof.
  intros Hu. unfold rows_of. simpl. rewrite List.filter_app. simpl.
  now rewrite (proj2 (Z.eqb_eq _ _) Hu).
Qed.

Lemma last_balance_of_rows {A} (s : Store A) u :
  last_balance_of u s = latest (rows_of u s).
Proof. reflexivity. Qed.

(** A new row dated after all the user's rows is the latest. *)
Lemma last_balance_of_new {A} (s : Store A) u (b : Balance A) :
  b_user_id b = u ->
  (forall r, In r (balances s) -> b_user_id r = u -> b_date r < b_date b) ->
  last_balance_of u (with_snapshot s b) = Some b.
Proof.
  intros Hu Hlt. rewrite last_balance_of_rows, (rows_of_own _ _ _ Hu), latest_snoc.
  destruct (latest (rows_of u s)) as [lb|] eqn:E; [|reflexivity].
  rewrite <- last_balance_of_rows in E. apply last_balance_of_some in E.
  destruct E as (Hin & Hlu & _). simpl.
  destruct (Z.ltb_spec (b_date lb) (b_date b)); [reflexivity|].
  specialize (Hlt lb Hin Hlu). lia.
Qed.

(** Two rows of one (user, day) are one row when the day has at most one. *)
Lemma one_row {A} (s : Store A) u d (b1 b2 : Balance A) :
  (rows_matched u d s <= 1)%nat ->
  In b1 (balances s) -> In b2 (balances s) ->
  balance_at u d b1 = true -> balance_at u d b2 = true -> b1 = b2.
Proof.
  unfold rows_matched. intros Hone H1 H2 F1 F2.
  assert (I1 : In b1 (List.filter (balance_at u d) (balances s)))
    by (apply filter_In; now split).
  assert (I2 : In b2 (List.filter (balance_at u d) (balances s)))
    by (apply filter_In; now split).
  destruct (List.filter (balance_at u d) (balances s)) as [|x [|y l]]; simpl in *.
  - destruct I1.
  - destruct I1 as [<-|[]], I2 as [<-|[]]. reflexivity.
  - lia.
Qed.

End LatestFacts.

(** ** Accrual visit by visit *)

Section VisitFacts.

Context {A : Type} {num : Num A}.

Implicit Types (s : Store A) (u today : Z).

(** In an ordered ledger the balance just resolved is kept in the user's
    latest row, dated today. *)
Lemma resolved_is_latest s u today :
  ledger_ok today s ->
  exists lb,
    last_balance_of u (snd (get_balance today u s)) = Some lb /\
    b_date lb = today /\ b_user_id lb = u /\
    b_balance lb = fst (get_balance today u s).
Proof.
  intros [Hdate Hone].
  destruct (get_balance_cases s u today)
    as [(bt & F & E) | [(F & v & E & Hlast) | (F & lb & Hlb & Hd & E)]];
    rewrite E; cbn [fst snd].
  - pose proof F as F'. unfold first_balance_at in F'. apply find_some in F'.
    destruct F' as [Hbt Fbt]. pose proof Fbt as Fbt'.
    unfold balance_at in Fbt'. apply andb_true_iff in Fbt'.
    destruct Fbt' as [Hbu Hbd]. apply Z.eqb_eq in Hbu. apply Z.eqb_eq in Hbd.
    destruct (last_balance_of u s) as [lb|] eqn:Hlb.
    + pose proof (last_balance_of_some _ _ _ Hlb) as (Hin & Hu & Hmax).
      pose proof (Hmax bt Hbt Hbu) as Hm. pose proof (Hdate lb Hin) as Hdl.
      assert (Hd : b_date lb = today) by lia.
      assert (Flb : balance_at u today lb = true).
      { unfold balance_at.
        now rewrite (proj2 (Z.eqb_eq _ _) Hu), (proj2 (Z.eqb_eq _ _) Hd). }
      assert (bt = lb) by (apply (one_row s u today); auto). subst bt.
      exists lb. repeat split; trivial.
    + rewrite last_balance_of_none in Hlb. exfalso. now apply (Hlb bt Hbt).
  - exists (new_snapshot s u today v). split; [|repeat split].
    apply last_balance_of_new; [reflexivity|]. cbn [b_date new_snapshot].
    intros r Hr Hru. pose proof (Hdate r Hr) as Hle.
    rewrite first_balance_at_none in F.
    assert (b_date r <> today) by (intros Ed; now apply (F r Hr)). lia.
  - pose proof (last_balance_of_some _ _ _ Hlb) as (Hin & Hu & _).
    pose proof (Hdate lb Hin) as Hle. rewrite first_balance_at_none in F.
    exfalso. apply (F lb Hin). split; [exact Hu | lia].
Qed.

(** X10. Accrual goes visit by visit. In a ledger with no snapshot dated
    after day [d1] and at most one a (user, day), resolving a user's balance on
    [d1] and, with no write in between, again on a later day [d2] returns
    the second time the sum, in the program's arithmetic, of the first
    result and [(d2 - d1) * DAILY_LIMIT], and keeps it in one new row
    dated [d2]. *)
Theorem catch_up_adds_to_last_visit s u d1 d2 :
  ledger_ok d1 s -> d1 < d2 ->
  let (v1, s1) := get_balance d1 u s in
  let v2 := add v1 (of_int ((d2 - d1) * DAILY_LIMIT)) in
  get_balance d2 u s1 = (v2, with_snapshot s1 (new_snapshot s1 u d2 v2)).
Proof.
  intros Hok Hlt.
  destruct (resolved_is_latest s u d1 Hok) as (lb & Hlb & Hd & Hu & Hv).
  pose proof (get_balance_ok s u d1 d1 Hok (Z.le_refl d1)) as [Hdate _].
  destruct (get_balance d1 u s) as [v1 s1]. cbn [fst snd] in *.
  assert (F : first_balance_at u d2 s1 = None).
  { apply first_balance_at_none. intros b Hb [_ Hbd]. specialize (Hdate b Hb). lia. }
  pose proof (get_balance_catch_up s1 u d2 lb F Hlb) as E.
  rewrite Hd, Hv in E. apply E. lia.
Qed.

End VisitFacts.

Lemma fl_cents_ok : ledger_ok (march_10 + 7) fl_cents.
Proof.
  split.
  - intros b [<-|[]]. vm_compute. discriminate.
  - intros u d. unfold rows_matched. simpl. destruct (balance_at u d _); simpl; lia.
Qed.

(** A balance of 2637.01 of 1 March, resolved on 17 March and again on
    4 April. *)
Lemma catch_up_adds_to_last_visit_witness :
  get_balance (march_10 + 25) 7 (snd (get_balance (march_10 + 7) 7 fl_cents))
  = (float_of_decimal false 7063701000000001 11,
     {| expenses := [];
        balances :=
          [{| b_id := 1; b_user_id := 7; b_date := march_10 - 9;
              b_balance := float_of_decimal false 263701 2 |};
           {| b_id := 2; b_user_id := 7; b_date := march_10 + 7;
              b_balance := float_of_decimal false 3463701 2 |};
           {| b_id := 3; b_user_id := 7; b_date := march_10 + 25;
              b_balance := float_of_decimal false 7063701000000001 11 |}] |}).
Proof.
  assert (Hlt : march_10 + 7 < march_10 + 25) by reflexivity.
  pose proof (catch_up_adds_to_last_visit fl_cents 7 (march_10 + 7) (march_10 + 25)
                fl_cents_ok Hlt) as H.
  destruct (get_balance (march_10 + 7) 7 fl_cents) as [v1 s1] eqn:E.
  vm_compute in E. injection E as <- <-.
  cbn [snd]. rewrite H. vm_compute. reflexivity.
Defined.

(** The balance depends on the visits: the same ledger resolved on 4 April
    alone gives 70637.01, a different float. *)
Lemma catch_up_depends_on_visits :
  fst (get_balance (march_10 + 25) 7 fl_cents) = float_of_decimal false 7063701 2 /\
  fst (get_balance (march_10 + 25) 7 (snd (get_balance (march_10 + 7) 7 fl_cents)))
    = float_of_decimal false 7063701000000001 11 /\
  PrimFloat.eqb (float_of_decimal false 7063701 2)
                (float_of_decimal false 7063701000000001 11) = false.
Proof. vm_compute. repeat split. Qed.

(** ** The first of the month *)

Lemma day_of_month_eq d :
  day_of_month d =
    month_day ((d + 305) mod 146097 - year_start (yoe_of ((d + 305) mod 146097))).
Proof. reflexivity. Qed.

Lemma yoe_step doe : 1 <= doe < 146097 -> yoe_of (doe - 1) <= yoe_of doe.
Proof.
  intros H. unfold yoe_of. apply Z.div_le_mono; [lia|].
  Z.to_euclidean_division_equations; lia.
Qed.

Lemma yoe_mono a b : 0 <= a -> a <= b -> b < 146097 -> yoe_of a <= yoe_of b.
Proof.
  intros Ha Hab Hb. replace b with (a + (b - a)) in * by lia.
  assert (Hk : 0 <= b - a) by lia. revert Hk Hb. generalize (b - a) as k.
  intros k Hk. pattern k. apply natlike_ind; [| |exact Hk].
  - intros _. rewrite Z.add_0_r. lia.
  - intros x Hx IH Hb. specialize (IH ltac:(lia)).
    pose proof (yoe_step (a + Z.succ x) ltac:(lia)) as S.
    replace (a + Z.succ x - 1) with (a + x) in S by lia. lia.
Qed.

Lemma years_checked : years_ok = true.
Proof. vm_compute. reflexivity. Qed.

Lemma year_bounds y : 0 <= y < 400 ->
  yoe_of (year_start y) = y /\ yoe_of (year_end y - 1) = y.
Proof.
  intros Hy. pose proof years_checked as H. unfold years_ok in H.
  rewrite forallb_forall in H. specialize (H y).
  assert (Hin : In y (List.map Z.of_nat (seq 0 400))).
  { apply in_map_iff. exists (Z.to_nat y). split; [lia|]. apply in_seq. lia. }
  specialize (H Hin). apply andb_true_iff in H. destruct H as [H1 H2].
  apply Z.eqb_eq in H1, H2. now split.
Qed.

Lemma year_start_bounds y : 0 <= y < 400 ->
  0 <= year_start y /\ year_start y < year_end y <= 146097 /\
  year_end y - year_start y <= 366.
Proof.
  intros H. unfold year_end, year_start. Z.to_euclidean_division_equations; lia.
Qed.

Lemma year_end_start a b : 0 <= a < b -> b < 400 -> year_end a <= year_start b.
Proof.
  intros H Hb. unfold year_end, year_start. Z.to_euclidean_division_equations; lia.
Qed.

Lemma year_of_day doe : 0 <= doe < 146097 ->
  0 <= yoe_of doe < 400 /\ year_start (yoe_of doe) <= doe < year_end (yoe_of doe).
Proof.
  intros H.
  assert (H0 : yoe_of 0 = 0) by reflexivity.
  assert (H399 : yoe_of 146096 = 399) by reflexivity.
  assert (Hy : 0 <= yoe_of doe < 400).
  { pose proof (yoe_mono 0 doe ltac:(lia) ltac:(lia) ltac:(lia)).
    pose proof (yoe_mono doe 146096 ltac:(lia) ltac:(lia) ltac:(lia)). lia. }
  split; [exact Hy|]. set (y := yoe_of doe) in *.
  pose proof (year_start_bounds y Hy) as (Hs0 & Hse & _). split.
  - destruct (Z.le_gt_cases (year_start y) doe) as [|Hlt]; [assumption|].
    exfalso. assert (Hy1 : 1 <= y).
    { destruct (Z.eq_dec y 0) as [E|]; [|lia]. rewrite E in Hlt.
      change (year_start 0) with 0 in Hlt. lia. }
    destruct (year_bounds (y - 1) ltac:(lia)) as [_ Hend].
    pose proof (year_start_bounds (y - 1) ltac:(lia)) as (Hp0 & Hpe & _).
    destruct (Z.le_gt_cases doe (year_end (y - 1) - 1)) as [Hle|Hgt].
    + pose proof (yoe_mono doe (year_end (y - 1) - 1) ltac:(lia) Hle ltac:(lia)) as Hm.
      fold y in Hm. lia.
    + pose proof (year_end_start (y - 1) y ltac:(lia) ltac:(lia)).
      assert (Eq : year_end (y - 1) = year_start y).
      { unfold year_end. replace (y - 1 + 1) with y by lia.
        rewrite (Z.div_small y 400) by lia. lia. }
      lia.
  - destruct (Z.lt_ge_cases doe (year_end y)) as [|Hge]; [assumption|].
    exfalso.
    assert (Hy1 : y + 1 < 400).
    { destruct (Z.eq_dec y 399) as [E|]; [|lia]. rewrite E in Hge.
      change (year_end 399) with 146097 in Hge. lia. }
    destruct (year_bounds (y + 1) ltac:(lia)) as [Hbeg _].
    assert (Eq : year_end y = year_start (y + 1)).
    { unfold year_end. rewrite (Z.div_small (y + 1) 400) by lia. lia. }
    pose proof (yoe_mono (year_start (y + 1)) doe ltac:(lia) ltac:(lia) ltac:(lia)) as Hm.
    fold y in Hm. lia.
Qed.

Lemma month_days_checked : month_days_ok = true.
Proof. vm_compute. reflexivity. Qed.

Lemma month_day_steps k : 0 <= k <= 365 ->
  1 <= month_day k <= 31 /\ (month_day k = 1 \/ month_day k = month_day (k - 1) + 1).
Proof.
  intros Hk. pose proof month_days_checked as H. unfold month_days_ok in H.
  rewrite forallb_forall in H. specialize (H k).
  assert (Hin : In k (List.map Z.of_nat (seq 0 366))).
  { apply in_map_iff. exists (Z.to_nat k). split; [lia|]. apply in_seq. lia. }
  specialize (H Hin). cbv zeta in H. apply andb_true_iff in H. destruct H as [H H3].
  apply andb_true_iff in H. destruct H as [H1 H2]. apply Z.leb_le in H1, H2.
  split; [lia|]. apply orb_true_iff in H3. destruct H3 as [H3|H3]; apply Z.eqb_eq in H3; tauto.
Qed.

Lemma day_of_month_steps d :
  1 <= day_of_month d <= 31 /\
  (day_of_month d = 1 \/ day_of_month d = day_of_month (d - 1) + 1).
Proof.
  rewrite !day_of_month_eq.
  pose proof (Z.mod_pos_bound (d + 305) 146097 ltac:(lia)) as Hdoe.
  set (doe := (d + 305) mod 146097) in *.
  destruct (year_of_day doe Hdoe) as [Hy [Hlo Hhi]].
  pose proof (year_start_bounds (yoe_of doe) Hy) as (Hs0 & _ & Hlen).
  assert (Hdoy : 0 <= doe - year_start (yoe_of doe) <= 365) by lia.
  destruct (month_day_steps _ Hdoy) as [Hr Hs]. split; [exact Hr|].
  destruct Hs as [Hs|Hs]; [now left|].
  destruct (Z.eq_dec (doe - year_start (yoe_of doe)) 0) as [E0|Hn0].
  { left. rewrite E0. reflexivity. }
  right. rewrite Hs. f_equal. f_equal.
  assert (Hdoe1 : (d - 1 + 305) mod 146097 = doe - 1).
  { symmetry. apply (Z.mod_unique_pos _ _ ((d + 305) / 146097)); [lia|].
    pose proof (Z.div_mod (d + 305) 146097 ltac:(lia)) as Hdm. fold doe in Hdm. lia. }
  rewrite Hdoe1.
  assert (Hsame : yoe_of (doe - 1) = yoe_of doe).
  { destruct (year_of_day (doe - 1) ltac:(lia)) as [Hy' [Hlo' Hhi']].
    pose proof (yoe_mono (doe - 1) doe ltac:(lia) ltac:(lia) ltac:(lia)) as Hm.
    destruct (Z.eq_dec (yoe_of (doe - 1)) (yoe_of doe)) as [|Hne]; [assumption|].
    exfalso.
    pose proof (year_end_start (yoe_of (doe - 1)) (yoe_of doe) ltac:(lia) ltac:(lia)).
    lia. }
  rewrite Hsame. lia.
Qed.

Lemma day_of_month_back d (k : Z) :
  0 <= k < day_of_month d -> day_of_month (d - k) = day_of_month d - k.
Proof.
  intros [Hk Hlt]. revert Hlt. pattern k. apply natlike_ind; [| |exact Hk].
  - intros _. rewrite Z.sub_0_r. lia.
  - intros x Hx IH Hlt. specialize (IH ltac:(lia)).
    destruct (day_of_month_steps (d - x)) as [_ [S|S]]; [lia|].
    replace (d - Z.succ x) with (d - x - 1) by lia. lia.
Qed.

(** X12. The month report starts on the first of the month. For every day
    [d], [d.replace(day=1)] is a day numbered 1, at most 30 days before
    [d], and the days from it to [d] are numbered 1, 2, 3, ... in a row:
    no other first of a month lies in between. *)
Theorem month_starts_on_the_first (d : date) :
  let start := replace_day_1 d in
  day_of_month start = 1 /\
  d - 30 <= start <= d /\
  forall j, start <= j <= d -> day_of_month j = 1 + (j - start).
Proof.
  destruct (day_of_month_steps d) as [[L U] _].
  unfold replace_day_1. cbv zeta. split; [|split].
  - rewrite day_of_month_back; lia.
  - lia.
  - intros j Hj. replace j with (d - (d - j)) at 1 by lia.
    rewrite day_of_month_back; lia.
Qed.


(** ** Period reports, category by category *)

Section PeriodFacts.

Context {K : Type} `{EqDecision K}.

Lemma qsum_app (xs ys : list Q) : (qsum (xs ++ ys) == qsum xs + qsum ys)%Q.
Proof. induction xs as [|x xs IH]; simpl; [ring|]. rewrite IH. ring. Qed.

Lemma filter_none {X} (p : X -> bool) (l : list X) :
  (forall x, In x l -> p x = false) -> List.filter p l = [].
Proof.
  induction l as [|x l IH]; simpl; intros H; [reflexivity|].
  rewrite (H x) by now left. apply IH. intros y Hy. apply H. now right.
Qed.

Lemma dict_get_group_add (k k' : K) (v : Q) (acc : list (K * Q)) :
  dict_get k' (group_add k v acc) =
    if decide (k = k')
    then Some (match dict_get k' acc with Some w => (w + v)%Q | None => v end)
    else dict_get k' acc.
Proof.
  induction acc as [|[k0 v0] acc IH]; simpl.
  - destruct (decide (k = k')); reflexivity.
  - destruct (decide (k0 = k)) as [->|Hne]; simpl.
    + destruct (decide (k = k')); reflexivity.
    + destruct (decide (k0 = k')) as [->|Hne'].
      * destruct (decide (k = k')); [congruence | reflexivity].
      * exact IH.
Qed.

(** One group of a GROUP BY: present exactly if a row has the key, and then
    holding the sum of the rows with that key. *)
Lemma group_sum_get (rows : list (K * Q)) (k : K) :
  match dict_get k (group_sum rows) with
  | Some v =>
    In k (List.map fst rows) /\
    (v == qsum (List.map snd (List.filter (fun kv => bool_decide (fst kv = k)) rows)))%Q
  | None => ~ In k (List.map fst rows)
  end.
Proof.
  unfold group_sum. induction rows as [|[k0 v0] rows IH] using rev_ind; simpl; [tauto|].
  rewrite fold_left_app. simpl. rewrite dict_get_group_add, List.filter_app, !List.map_app.
  simpl. destruct (decide (k0 = k)) as [->|Hne].
  - rewrite bool_decide_eq_true_2 by reflexivity. simpl.
    split; [apply in_or_app; right; now left|].
    rewrite qsum_app. simpl.
    destruct (dict_get k (fold_left (fun acc kv => group_add (fst kv) (snd kv) acc) rows []))
      as [w|].
    + destruct IH as [_ IH]. rewrite IH. ring.
    + assert (E : List.filter (fun kv : K * Q => bool_decide (fst kv = k)) rows = []).
      { apply filter_none. intros kv Hkv.
        destruct (decide (fst kv = k)) as [Ek|Nk];
          [|now rewrite bool_decide_eq_false_2].
        exfalso. apply IH. apply in_map_iff. now exists kv. }
      rewrite E. simpl. ring.
  - rewrite bool_decide_eq_false_2 by exact Hne. simpl.
    destruct (dict_get k (fold_left (fun acc kv => group_add (fst kv) (snd kv) acc) rows []))
      as [w|].
    + destruct IH as [Hin IH]. split; [apply in_or_app; now left|].
      rewrite qsum_app, IH. simpl. ring.
    + intros Hin. apply in_app_or in Hin. destruct Hin as [Hin|[Hin|[]]];
        [now apply IH | congruence].
Qed.

End PeriodFacts.

(** X13. [get_stats] groups by category. Whatever the period, the query
    leaves the store as it was and returns one row for each category of
    the user's expenses dated from the period's first day on: today less
    seven days for "week", the first of today's month for "month", and
    today for "day" and for every other text. The row of a category holds
    the exact sum of those expenses filed under it, and a category with no
    such expense has no row. *)
Theorem get_stats_groups (s : Store Q) (u today : Z) (period : string) :
  let start_date :=
    if String.eqb period "week" then today - 7
    else if String.eqb period "month" then replace_day_1 today
    else today in
  let found := List.filter (expense_since u start_date) (expenses s) in
  let stats := fst (get_stats today u period s) in
  snd (get_stats today u period s) = s /\
  List.NoDup (dict_keys stats) /\
  forall cat,
    match dict_get cat stats with
    | Some v => In cat (List.map e_category found) /\ (v == category_sum cat found)%Q
    | None => ~ In cat (List.map e_category found)
    end.
Proof.
  cbv zeta.
  assert (E : get_stats today u period s =
              (group_sum
                 (List.map (fun e => (e_category e, e_amount e))
                    (List.filter
                       (expense_since u
                          (if String.eqb period "week" then today - 7
                           else if String.eqb period "month" then replace_day_1 today
                           else today))
                       (expenses s))), s)).
  { unfold get_stats, db_select.
    destruct (String.eqb_spec period "day") as [->|_]; reflexivity. }
  rewrite E. simpl fst. simpl snd.
  split; [reflexivity|]. split; [apply group_sum_nodup|].
  intros cat.
  pose proof (group_sum_get
                (List.map (fun e => (e_category e, e_amount e))
                   (List.filter
                      (expense_since u
                         (if String.eqb period "week" then today - 7
                          else if String.eqb period "month" then replace_day_1 today
                          else today))
                      (expenses s))) cat) as G.
  rewrite List.map_map in G. simpl in G.
  unfold category_sum.
  rewrite List.filter_map_swap, List.map_map in G. simpl in G.
  exact G.
Qed.

(** ** The days of the week report *)

Section ReportDayFacts.

Context {A : Type} {num : Num A}.

Implicit Types (s : Store A) (bot : Bot A) (u today : Z).

Lemma group_add_key_iff {K} `{EqDecision K} (k k' : K) (v : A) (acc : list (K * A)) :
  In k' (List.map fst (group_add k v acc)) <-> k' = k \/ In k' (List.map fst acc).
Proof.
  induction acc as [|[k0 v0] acc IH]; simpl.
  - intuition congruence.
  - destruct (decide (k0 = k)) as [->|Hne]; simpl.
    + intuition congruence.
    + rewrite IH. intuition congruence.
Qed.

Lemma group_sum_key_iff {K} `{EqDecision K} (rows : list (K * A)) (k : K) :
  In k (List.map fst (group_sum rows)) <-> In k (List.map fst rows).
Proof.
  unfold group_sum. induction rows as [|[k0 v0] rows IH] using rev_ind; [reflexivity|].
  rewrite fold_left_app, List.map_app, in_app_iff. simpl.
  rewrite group_add_key_iff, IH. intuition congruence.
Qed.

Lemma weekly_rows_days s u start d :
  In d (List.map (fun r => fst (fst r)) (weekly_rows start u s)) <->
  exists e, In e (expenses s) /\ e_user_id e = u /\ start <= e_date e /\ e_date e = d.
Proof.
  unfold weekly_rows. rewrite in_map_iff. split.
  - intros (r & <- & Hr). apply in_order_by in Hr.
    apply (in_map fst) in Hr. apply (proj1 (group_sum_key_iff _ _)) in Hr.
    rewrite List.map_map in Hr. apply in_map_iff in Hr. destruct Hr as (e & E & He).
    simpl in E. apply filter_In in He. destruct He as [He F].
    unfold expense_since in F. apply andb_true_iff in F. destruct F as [Fu Fd].
    apply Z.eqb_eq in Fu. apply Z.leb_le in Fd.
    exists e. rewrite <- E. repeat split; trivial.
  - intros (e & He & Hu & Hs & <-).
    assert (Hk : In (e_date e, e_category e)
                   (List.map fst
                      (group_sum (List.map (fun e => ((e_date e, e_category e), e_amount e))
                                    (List.filter (expense_since u start) (expenses s)))))).
    { apply group_sum_key_iff. rewrite List.map_map. apply in_map_iff.
      exists e. split; [reflexivity|]. apply filter_In. split; [exact He|].
      unfold expense_since. apply andb_true_iff. split; [now apply Z.eqb_eq | now apply Z.leb_le]. }
    apply in_map_iff in Hk. destruct Hk as (r & Er & Hr).
    exists r. split; [now rewrite Er | now apply in_order_by].
Qed.

Lemma dict_keys_set {K} `{EqDecision K} {V} (k k' : K) (v : V) (d : list (K * V)) :
  In k' (dict_keys (dict_set k v d)) <-> k' = k \/ In k' (dict_keys d).
Proof.
  unfold dict_keys. induction d as [|[k0 v0] d IH]; simpl.
  - intuition congruence.
  - destruct (decide (k0 = k)) as [->|Hne]; simpl.
    + intuition congruence.
    + rewrite IH. intuition congruence.
Qed.

Lemma dict_keys_update {K} `{EqDecision K} {V} (k : K) (f : V -> V) (d : list (K * V)) :
  dict_keys (dict_update k f d) = dict_keys d.
Proof.
  unfold dict_keys. induction d as [|[k0 v0] d IH]; simpl; [reflexivity|].
  destruct (decide (k0 = k)); simpl; [reflexivity | now rewrite IH].
Qed.

Lemma dict_get_key {K} `{EqDecision K} {V} (k : K) (v : V) (d : list (K * V)) :
  dict_get k d = Some v -> In k (dict_keys d).
Proof.
  unfold dict_keys. induction d as [|[k0 v0] d IH]; simpl; [discriminate|].
  destruct (decide (k0 = k)); [now left | intros H; right; now apply IH].
Qed.

Lemma daily_stats_step_days (ds : list (date * list (string * A)))
    (row : date * option string * A) d :
  In d (dict_keys (daily_stats_step ds row)) <-> d = fst (fst row) \/ In d (dict_keys ds).
Proof.
  destruct row as [[d0 c] v]. unfold daily_stats_step. rewrite dict_keys_update. simpl fst.
  destruct (dict_get d0 ds) as [cats|] eqn:E.
  - split; [now right|]. intros [->|H]; [|exact H]. exact (dict_get_key _ _ _ E).
  - apply dict_keys_set.
Qed.

Lemma daily_stats_days (rows : list (date * option string * A)) ds d :
  In d (dict_keys (fold_left daily_stats_step rows ds)) <->
  In d (dict_keys ds) \/ In d (List.map (fun r => fst (fst r)) rows).
Proof.
  revert ds. induction rows as [|row rows IH]; intros ds; simpl fold_left; simpl List.map.
  - simpl. tauto.
  - rewrite IH, daily_stats_step_days. simpl. intuition congruence.
Qed.

Lemma balances_days {V} (rows : list (date * V)) acc d :
  In d (dict_keys (fold_left (fun acc db => dict_set (fst db) (snd db) acc) rows acc)) <->
  In d (dict_keys acc) \/ In d (List.map fst rows).
Proof.
  revert acc. induction rows as [|row rows IH]; intros acc; simpl.
  - tauto.
  - rewrite IH, dict_keys_set. intuition congruence.
Qed.

Lemma in_insert_day (d x : date) (l : list date) :
  In x (insert_day d l) <-> x = d \/ In x l.
Proof.
  induction l as [|y l IH]; simpl; [intuition congruence|].
  destruct (d <? y); [simpl; intuition congruence|].
  destruct (Z.eqb_spec d y) as [->|Hne]; simpl; [intuition congruence|].
  rewrite IH. intuition congruence.
Qed.

Lemma insert_day_sorted (d : date) (l : list date) :
  StronglySorted Z.lt l -> StronglySorted Z.lt (insert_day d l).
Proof.
  induction 1 as [|y l Hs IH Hall]; simpl; [repeat constructor|].
  destruct (Z.ltb_spec d y) as [Hlt|Hge].
  - constructor; [now constructor|]. constructor; [exact Hlt|].
    eapply List.Forall_impl; [|exact Hall]. simpl. intros z Hz. lia.
  - destruct (Z.eqb_spec d y) as [->|Hne]; [now constructor|].
    constructor; [exact IH|]. apply List.Forall_forall. intros z Hz.
    apply in_insert_day in Hz. destruct Hz as [->|Hz]; [lia|].
    exact (proj1 (List.Forall_forall _ _) Hall z Hz).
Qed.

Lemma sorted_set_spec (l : list date) :
  StronglySorted Z.lt (sorted_set l) /\ forall d, In d (sorted_set l) <-> In d l.
Proof.
  unfold sorted_set. induction l as [|x l [IHs IHm]]; simpl.
  - split; [constructor | tauto].
  - split; [now apply insert_day_sorted|].
    intros d. rewrite in_insert_day, IHm. intuition congruence.
Qed.

Lemma week_days_listed s u today d :
  In d (dict_keys (weekly_daily_stats today u s) ++ dict_keys (weekly_balances today u s)) <->
  in_week_report today u s d.
Proof.
  unfold weekly_daily_stats, weekly_balances, in_week_report.
  rewrite in_app_iff, daily_stats_days, balances_days, weekly_rows_days. simpl.
  split.
  - intros [[[]|(e & He & Hu & Hs & Hd)]|[[]|Hb]].
    + split; [lia|]. left. now exists e.
    + apply in_map_iff in Hb. destruct Hb as ([d' v] & Ed & Hb). simpl in Ed. subst d'.
      apply in_weekly_balance_rows in Hb. destruct Hb as (b & Hb & Hu & Hs & Hd & _).
      split; [lia|]. right. now exists b.
  - intros [Hs [(e & He & Hu & Hd)|(b & Hb & Hu & Hd)]].
    + left. right. exists e. repeat split; trivial. lia.
    + right. right. apply in_map_iff. exists (d, b_balance b). split; [reflexivity|].
      apply in_weekly_balance_rows. exists b. repeat split; trivial. lia.
Qed.

(** X14. The days of the week report. When the period is "week", the
    handler either answers that nothing was found, and then the user has
    no expense and no snapshot dated from six days before today on; or it
    lists at least one day, each day once and in ascending order, and the
    days listed are exactly those from six days before today on for which
    the user has an expense or a snapshot. Days after today are listed
    too, and a day of the window with neither is left out. *)
Theorem week_report_days bot u today data :
  nth_error (split "_" data) 1 = Some "week" ->
  (stats_callback today u data bot = Done bot [WeekNothingFound; CallbackAnswered] /\
   forall d, ~ in_week_report today u (store bot) d) \/
  (exists lines total,
     stats_callback today u data bot = Done bot [WeekReport lines total; CallbackAnswered] /\
     lines <> [] /\
     StronglySorted Z.lt (List.map dl_date lines) /\
     forall d, In d (List.map dl_date lines) <-> in_week_report today u (store bot) d).
Proof.
  intros Hp. rewrite stats_callback_steps, Hp.
  change (String.eqb "week" "week") with true. cbv iota.
  pose proof (week_days_listed (store bot) u today) as Hdays.
  destruct (sorted_set_spec (dict_keys (weekly_daily_stats today u (store bot)) ++
                             dict_keys (weekly_balances today u (store bot))))
    as [Hsorted Hmem].
  assert (Hdate : forall ds found days,
            List.map dl_date (List.map (week_day_lines (A:=A) ds found) days) = days).
  { intros ds found days. rewrite List.map_map. simpl. apply List.map_id. }
  assert (Hsome : (exists d, in_week_report today u (store bot) d) ->
    exists lines total,
      Done bot
        [WeekReport
           (List.map (week_day_lines (weekly_daily_stats today u (store bot))
                        (weekly_balances today u (store bot)))
              (sorted_set (dict_keys (weekly_daily_stats today u (store bot)) ++
                           dict_keys (weekly_balances today u (store bot)))))
           (py_sum (List.map (fun cats => py_sum (dict_values cats))
                      (dict_values (weekly_daily_stats today u (store bot)))));
         CallbackAnswered]
      = Done bot [WeekReport lines total; CallbackAnswered] /\
      lines <> [] /\
      StronglySorted Z.lt (List.map dl_date lines) /\
      forall d, In d (List.map dl_date lines) <-> in_week_report today u (store bot) d).
  { intros (d0 & Hd0). eexists. eexists. split; [reflexivity|]. rewrite Hdate.
    split; [|split; [exact Hsorted|]].
    - intros E. apply (f_equal (List.map dl_date)) in E. rewrite Hdate in E. simpl in E.
      apply Hdays, Hmem in Hd0. rewrite E in Hd0. exact Hd0.
    - intros d. now rewrite Hmem, Hdays. }
  destruct (weekly_daily_stats today u (store bot)) as [|p ds] eqn:Eds.
  - destruct (weekly_balances today u (store bot)) as [|q found] eqn:Ef.
    + left. split; [reflexivity|]. intros d Hd. apply Hdays in Hd. exact Hd.
    + right. apply Hsome. exists (fst q). apply Hdays. simpl. now left.
  - right. apply Hsome. exists (fst p). apply Hdays. simpl. now left.
Qed.

End ReportDayFacts.

(** ** The balances of the week report *)

Section WeekBalanceFacts.

Context {A : Type} {num : Num A}.

Implicit Types (s : Store A) (bot : Bot A) (u today : Z).

(** ORDER BY is stable: the rows of one date keep their order. *)
Lemma filter_insert_by {X} (key : X -> date) (d : date) (x : X) (l : list X) :
  List.filter (fun y => key y =? d) (insert_by key x l)
    = List.filter (fun y => key y =? d) (x :: l).
Proof.
  induction l as [|y l IH]; [reflexivity|]. simpl insert_by.
  destruct (Z.leb_spec (key x) (key y)) as [Hle|Hlt]; [reflexivity|].
  simpl List.filter in *. rewrite IH.
  destruct (Z.eqb_spec (key x) d) as [Ex|Nx]; [|reflexivity].
  destruct (Z.eqb_spec (key y) d) as [Ey|Ny]; [lia | reflexivity].
Qed.

Lemma filter_order_by {X} (key : X -> date) (d : date) (l : list X) :
  List.filter (fun y => key y =? d) (order_by key l)
    = List.filter (fun y => key y =? d) l.
Proof.
  induction l as [|x l IH]; [reflexivity|].
  simpl order_by. rewrite filter_insert_by. simpl. now rewrite IH.
Qed.

(** A dictionary filled row by row holds, under a key, the value of the
    last row with that key. *)
Lemma dict_get_fold_set {V} (rows : list (date * V)) (acc : list (date * V)) (d : date) :
  dict_get d (fold_left (fun acc db => dict_set (fst db) (snd db) acc) rows acc)
    = fold_left (fun o db => Some (snd db))
        (List.filter (fun db => fst db =? d) rows) (dict_get d acc).
Proof.
  revert acc. induction rows as [|[d0 v0] rows IH]; intros acc; [reflexivity|].
  simpl fold_left at 1. rewrite IH, dict_get_set. simpl List.filter. simpl fst.
  destruct (Z.eqb_spec d0 d) as [->|Hne].
  - destruct (decide (d = d)); [reflexivity | congruence].
  - destruct (decide (d0 = d)); [congruence | reflexivity].
Qed.

Lemma first_balance_at_none' s u d :
  List.filter (balance_at u d) (balances s) = [] <->
  (forall b, In b (balances s) -> ~ (b_user_id b = u /\ b_date b = d)).
Proof.
  rewrite <- first_balance_at_none. unfold first_balance_at.
  induction (balances s) as [|b l IH]; simpl; [tauto|].
  destruct (balance_at u d b); [split; discriminate | exact IH].
Qed.

Lemma filter_filter_as {X} (p q r : X -> bool) (l : list X) :
  (forall x, q x && p x = r x) ->
  List.filter p (List.filter q l) = List.filter r l.
Proof.
  intros H. induction l as [|x l IH]; simpl; [reflexivity|].
  rewrite <- (H x). destruct (q x); simpl; [destruct (p x)|]; now rewrite IH.
Qed.

Lemma fold_last_map {X Y V} (g : X -> Y) (h : Y -> V) (l : list X) (o : option V) :
  fold_left (fun _ y => Some (h y)) (List.map g l) o
    = fold_left (fun _ x => Some (h (g x))) l o.
Proof. revert o. induction l as [|x l IH]; intros o; simpl; [reflexivity | apply IH]. Qed.

Lemma fold_last_none {X V} (h : X -> V) (l : list X) (o : option V) :
  fold_left (fun _ x => Some (h x)) l o = None <-> l = [] /\ o = None.
Proof.
  revert o. induction l as [|x l IH]; intros o; simpl; [intuition congruence|].
  rewrite IH. intuition congruence.
Qed.

(** The balances [get_weekly_stats] returns: for a day from the first of
    the window on, the balance of the user's last snapshot row for it. *)
Lemma weekly_balances_get s u today d :
  dict_get d (weekly_balances today u s)
    = if today - 6 <=? d then last_balance_at u d s else None.
Proof.
  unfold weekly_balances, weekly_balance_rows, last_balance_at.
  rewrite dict_get_fold_set. simpl dict_get.
  rewrite (filter_order_by fst), List.filter_map_swap.
  rewrite (fold_last_map (fun b => (b_date b, b_balance b)) snd).
  simpl snd. simpl fst.
  rewrite (filter_filter_as _ _
             (fun b => if today - 6 <=? d then balance_at u d b else false)).
  - destruct (today - 6 <=? d); [reflexivity|]. now rewrite List.filter_false.
  - intros b. unfold balance_since, balance_at.
    destruct (Z.eqb_spec (b_user_id b) u); simpl;
      destruct (Z.leb_spec (today - 6) (b_date b)); simpl;
      destruct (Z.eqb_spec (b_date b) d); simpl;
      destruct (Z.leb_spec (today - 6) d); trivial; lia.
Qed.

(** C8. [get_weekly_stats] returns the store it was given. The balance it
    returns for a day is read off the snapshot rows: for a day from the
    first of the window on, it is the balance of the user's last stored
    row for that day, and there is none where the user has no row; nothing
    is accrued. The week report of [stats_callback] leaves the whole
    process state as it was and prints, on every day it lists, that stored
    balance, or "balance not found" where the user has no row. *)
Theorem weekly_report_reads_only bot u today :
  let s := store bot in
  let '(daily_stats, found, total_sum, s') := get_weekly_stats today u s in
  s' = s /\
  (forall d,
     dict_get d found = if today - 6 <=? d then last_balance_at u d s else None) /\
  (forall d, last_balance_at u d s = None <->
             forall b, In b (balances s) -> ~ (b_user_id b = u /\ b_date b = d)) /\
  (forall data,
     nth_error (split "_" data) 1 = Some "week" ->
     exists out,
       stats_callback today u data bot = Done bot out /\
       forall days total line,
         In (WeekReport days total) out -> In line days ->
         today - 6 <= dl_date line /\
         dl_balance line = match last_balance_at u (dl_date line) s with
                           | Some v => BalanceFound v
                           | None => BalanceNotFound
                           end).
Proof.
  intros s. rewrite get_weekly_stats_eq. split; [reflexivity|].
  split; [apply weekly_balances_get|]. split.
  { intros d. unfold last_balance_at. rewrite fold_last_none, first_balance_at_none'.
    tauto. }
  intros data Hdata. rewrite stats_callback_steps, Hdata.
  change (String.eqb "week" "week") with true. cbv iota.
  assert (Hlines : forall days total line,
            In (WeekReport days total)
               [WeekReport
                  (List.map (week_day_lines (weekly_daily_stats today u (store bot))
                               (weekly_balances today u (store bot)))
                     (sorted_set (dict_keys (weekly_daily_stats today u (store bot)) ++
                                  dict_keys (weekly_balances today u (store bot)))))
                  (py_sum (List.map (fun cats => py_sum (dict_values cats))
                             (dict_values (weekly_daily_stats today u (store bot)))));
                CallbackAnswered] ->
            In line days ->
            today - 6 <= dl_date line /\
            dl_balance line = match last_balance_at u (dl_date line) s with
                              | Some v => BalanceFound v
                              | None => BalanceNotFound
                              end).
  { intros days total line [E|[E|[]]] Hline; [|discriminate E].
    injection E as <- _. apply in_map_iff in Hline. destruct Hline as (d & <- & Hd).
    apply sorted_set_spec, week_days_listed in Hd. destruct Hd as [Hd _].
    split; [exact Hd|]. simpl dl_balance. simpl dl_date.
    rewrite weekly_balances_get.
    destruct (Z.leb_spec (today - 6) d); [reflexivity | lia]. }
  destruct (weekly_daily_stats today u (store bot)) as [|ds0 ds] eqn:Eds.
  - destruct (weekly_balances today u (store bot)) as [|b0 bs] eqn:Ebs.
    + eexists. split; [reflexivity|].
      intros days total line [E|[E|[]]]; discriminate E.
    + eexists. split; [reflexivity | exact Hlines].
  - eexists. split; [reflexivity | exact Hlines].
Qed.

End WeekBalanceFacts.

(** On 10 March 2024 the week report of a user whose only snapshot is of
    that day lists that day alone, with the stored balance. *)
Lemma weekly_report_reads_only_witness :
  let bot := {| store := fl_spent; pending_expenses := ∅; awaiting_budget_add := ∅ |} in
  stats_callback march_10 7 "stats_week" bot
    = Done bot
        [WeekReport
           [{| dl_date := march_10;
               dl_cats := [("Groceries", float_of_Z 500)];
               dl_day_total := float_of_Z 500;
               dl_balance := BalanceFound (float_of_Z 1500) |}]
           (float_of_Z 500);
         CallbackAnswered].
Proof.
  intros bot.
  pose proof (weekly_report_reads_only bot 7 march_10) as H.
  cbv zeta in H. rewrite get_weekly_stats_eq in H.
  destruct H as (_ & _ & _ & H).
  destruct (H "stats_week" eq_refl) as (out & E & _).
  rewrite E. vm_compute in E. injection E as <-. vm_compute. reflexivity.
Defined.

Lemma week_report_days_witness :
  (stats_callback 4 7 "stats_week"
     {| store := ex_day1; pending_expenses := ∅; awaiting_budget_add := ∅ |}
   = Done {| store := ex_day1; pending_expenses := ∅; awaiting_budget_add := ∅ |}
       [WeekNothingFound; CallbackAnswered] /\
   forall d, ~ in_week_report 4 7 ex_day1 d) \/
  (exists lines total,
     stats_callback 4 7 "stats_week"
       {| store := ex_day1; pending_expenses := ∅; awaiting_budget_add := ∅ |}
     = Done {| store := ex_day1; pending_expenses := ∅; awaiting_budget_add := ∅ |}
         [WeekReport lines total; CallbackAnswered] /\
     lines <> [] /\
     StronglySorted Z.lt (List.map dl_date lines) /\
     forall d, In d (List.map dl_date lines) <-> in_week_report 4 7 ex_day1 d).
Proof.
  exact (week_report_days
           {| store := ex_day1; pending_expenses := ∅; awaiting_budget_add := ∅ |}
           7 4 "stats_week" eq_refl).
Defined.

(** ** The week's total, day by day *)

Section WeekOrderFacts.

Context {A : Type} {num : Num A}.

Implicit Types (s : Store A) (u today : Z).

(** *** Dictionaries that grow at the end *)




(** *** The loop over the rows of one day *)









(** *** ORDER BY sorts, and a sorted list is its days one after another *)



Lemma filter_sorted {X} (R : X -> X -> Prop) (p : X -> bool) (l : list X) :
  StronglySorted R l -> StronglySorted R (List.filter p l).
Proof.
  induction 1 as [|y l Hs IH Hy]; simpl; [constructor|].
  destruct (p y); [|exact IH]. constructor; [exact IH|].
  rewrite List.Forall_forall in *. intros z Hz. apply filter_In in Hz. now apply Hy.
Qed.

Lemma filter_all {X} (p : X -> bool) (l : list X) :
  (forall x, In x l -> p x = true) -> List.filter p l = l.
Proof.
  induction l as [|x l IH]; simpl; intros H; [reflexivity|].
  rewrite (H x) by now left. rewrite IH; [reflexivity|]. intros y Hy. apply H. now right.
Qed.

(** In a sorted list the rows of the least day come first. *)
Lemma sorted_first_day {X} (key : X -> date) (d : date) (l : list X) :
  StronglySorted (fun a b => key a <= key b) l ->
  (forall x, In x l -> d <= key x) ->
  l = (List.filter (fun x => key x =? d) l
       ++ List.filter (fun x => negb (key x =? d)) l)%list.
Proof.
  induction 1 as [|y l Hs IH Hy]; intros Hd; simpl; [reflexivity|].
  destruct (Z.eqb_spec (key y) d) as [E|Hne]; simpl.
  - f_equal. apply IH. intros x Hx. apply Hd. now right.
  - rewrite List.Forall_forall in Hy. pose proof (Hd y (or_introl eq_refl)) as Hy0.
    rewrite (filter_none (fun x => key x =? d) l).
    + simpl. f_equal. symmetry. apply filter_all. intros x Hx. specialize (Hy x Hx).
      apply negb_true_iff. apply Z.eqb_neq. lia.
    + intros x Hx. specialize (Hy x Hx). apply Z.eqb_neq. lia.
Qed.

Lemma sorted_days {X} (key : X -> date) (ws : list date) (l : list X) :
  StronglySorted Z.lt ws ->
  StronglySorted (fun a b => key a <= key b) l ->
  (forall x, In x l -> In (key x) ws) ->
  l = List.concat (List.map (fun d => List.filter (fun x => key x =? d) l) ws).
Proof.
  intros Hws. revert l. induction Hws as [|d ws Hs IH Hd]; intros l Hl Hin; simpl.
  - destruct l as [|x l]; [reflexivity|]. destruct (Hin x (or_introl eq_refl)).
  - rewrite List.Forall_forall in Hd.
    rewrite (sorted_first_day key d l Hl) at 1.
    + f_equal. rewrite (IH (List.filter (fun x => negb (key x =? d)) l)).
      * f_equal. apply List.map_ext_in. intros d' Hd'. specialize (Hd d' Hd').
        apply filter_filter_as. intros x.
        destruct (Z.eqb_spec (key x) d); destruct (Z.eqb_spec (key x) d'); trivial; lia.
      * now apply filter_sorted.
      * intros x Hx. apply filter_In in Hx. destruct Hx as [Hx Hne].
        apply negb_true_iff, Z.eqb_neq in Hne.
        destruct (Hin x Hx) as [E|Hw]; [congruence | exact Hw].
    + intros x Hx. destruct (Hin x Hx) as [E|Hw]; [lia|]. specialize (Hd _ Hw). lia.
Qed.


(** *** GROUP BY date and category, read day by day *)







(** *** Each key once *)






(** *** The days of the window *)






(** *** Sums that skip the days without rows *)

(** What the sums need of the program's arithmetic: 0 + 0 is 0, and a sum
    that adding 0 leaves as it is stays so when a term is added to it. So
    it is for exact amounts, and for binary64, where -0 + 0 is 0 but no
    sum that started from 0 is -0. *)
Hypothesis zero_zero : add (of_int 0) (of_int 0) = of_int 0 :> A.
Hypothesis zero_absorbed :
  forall x y : A, add x (of_int 0) = x -> add (add x y) (of_int 0) = add x y.





End WeekOrderFacts.

Lemma rational_add_zero (x : Q) : add x (of_int 0) = x.
Proof.
  destruct x as [a b]. simpl. unfold Qplus. simpl.
  now rewrite Z.mul_1_r, Z.add_0_r, Pos.mul_1_r.
Qed.




(** ** The keyboards *)

Section KeyboardFacts.

Context {A : Type} {num : Num A}.

Implicit Types (s : Store A) (bot : Bot A) (u today : Z).

(** X15. No button raises. Every button of the two keyboards the bot
    sends is routed to a handler that runs to its end, whoever presses it,
    on whatever day and in whatever state: a report button finds its
    period in [names], and a category button finds its category. *)
Theorem offered_buttons_are_answered bot u today data :
  In data (callbacks_of menu_kb ++ callbacks_of categories_kb)%list ->
  exists bot' out, dispatch today (Callback u data) bot = Done bot' out.
Proof.
  intros Hin. simpl in Hin.
  destruct Hin as [<-|[<-|[<-|[<-|Hcat]]]].
  - unfold dispatch. simpl String.prefix. cbv iota. simpl String.eqb. cbv iota.
    rewrite stats_callback_steps. simpl. eauto.
  - unfold dispatch. simpl String.prefix. cbv iota. simpl String.eqb. cbv iota.
    rewrite stats_callback_steps. simpl.
    destruct (weekly_daily_stats today u (store bot)); [|eauto].
    destruct (weekly_balances today u (store bot)); eauto.
  - unfold dispatch. simpl String.prefix. cbv iota. simpl String.eqb. cbv iota.
    rewrite stats_callback_steps. simpl. eauto.
  - unfold dispatch. simpl. unfold handle_add_budget. eauto.
  - assert (Hc : exists category,
               String.prefix "cat_" data = true /\ snd (cut "_" data) = Some category).
    { destruct Hcat as [<-|[<-|[<-|[<-|[<-|[]]]]]]; eexists; split; reflexivity. }
    destruct Hc as (category & Hp & Hc).
    unfold dispatch. rewrite Hp. unfold handle_category. rewrite Hc.
    destruct (pending_expenses bot !! u) as [a|]; [|eauto].
    destruct (in_session _ _). eauto.
Qed.

(** Where the category of a stored expense comes from. *)
Lemma dispatch_categories today (ev : Event) bot e :
  In e (expenses (store (outcome_bot (dispatch today ev bot)))) ->
  In e (expenses (store bot)) \/
  exists u data category,
    ev = Callback u data /\ String.prefix "cat_" data = true /\
    snd (cut "_" data) = Some category /\ e_category e = Some category.
Proof.
  destruct ev as [u text | u data]; unfold dispatch.
  - destruct (String.eqb text "/start").
    + unfold start_cmd.
      pose proof (in_session_store (get_balance today u) bot) as (Hs & _).
      destruct (in_session (get_balance today u) bot). simpl in Hs |- *. rewrite Hs.
      rewrite get_balance_expenses. now left.
    + destruct (amount_regexp text); [|now left]. unfold handle_amount.
      destruct (decide (u ∈ awaiting_budget_add bot)).
      * destruct (float_of_text text) as [a|]; [|now left].
        pose proof (in_session_store (add_to_budget today u a) bot) as (Hs & _).
        destruct (in_session (add_to_budget today u a) bot). simpl in Hs |- *. rewrite Hs.
        rewrite add_to_budget_expenses. now left.
      * destruct (float_of_text text); now left.
  - destruct (String.prefix "cat_" data) eqn:Hp.
    + unfold handle_category. destruct (snd (cut "_" data)) as [category|] eqn:Hc; [|now left].
      destruct (pending_expenses bot !! u) as [a|]; [|now left].
      set (bot1 := {| store := store bot;
                      pending_expenses := delete u (pending_expenses bot);
                      awaiting_budget_add := awaiting_budget_add bot |}).
      pose proof (in_session_store (add_expense today u a (Some category)) bot1) as (Hs & _).
      destruct (in_session (add_expense today u a (Some category)) bot1).
      simpl in Hs |- *. rewrite Hs.
      rewrite add_expense_store. simpl. rewrite get_balance_expenses.
      intros Hin. apply in_app_or in Hin. destruct Hin as [Hin|[<-|[]]]; [now left|].
      right. exists u, data, category. now repeat split.
    + destruct (String.eqb data "add_budget"); [now left|].
      destruct (String.prefix "stats_" data); [|now left].
      rewrite stats_callback_reads. now left.
Qed.

Lemma labelled_distinct s u : labelled s -> labels_distinct u s.
Proof.
  intros Hl e1 e2 H1 H2 _ _ _ Hlab.
  destruct (Hl e1 H1) as (c1 & E1 & N1). destruct (Hl e2 H2) as (c2 & E2 & N2).
  rewrite E1, E2 in *. simpl in Hlab.
  destruct (String.eqb_spec c1 ""); [contradiction|].
  destruct (String.eqb_spec c2 ""); [contradiction|].
  now subst.
Qed.

Lemma dispatch_labelled today (ev : Event) bot :
  offered ev -> labelled (store bot) ->
  labelled (store (outcome_bot (dispatch today ev bot))).
Proof.
  intros Hoff Hl e He.
  destruct (dispatch_categories today ev bot e He)
    as [Hin|(u & data & category & -> & Hp & Hc & Ec)]; [now apply Hl|].
  exists category. split; [exact Ec|]. simpl in Hoff.
  destruct Hoff as [<-|[<-|[<-|[<-|[<-|[<-|[<-|[<-|[<-|[]]]]]]]]]];
    try discriminate Hp; injection Hc as <-; discriminate.
Qed.

(** X16. Through the keyboards, labels never collide. Every category a
    button of the category keyboard sends is a text that is not empty, so
    as long as callbacks come from the bot's own keyboards every stored
    expense has a category that is its own label, and no two categories of
    a user's day share a label: what the weekly total asks of the store
    holds by itself. *)
Theorem keyboards_keep_labels_distinct (events : list (date * Event)) bot :
  Forall (fun de => offered (snd de)) events ->
  labelled (store bot) ->
  labelled (store (run_events events bot)) /\
  forall u, labels_distinct u (store (run_events events bot)).
Proof.
  intros Hoff Hl.
  assert (H : labelled (store (run_events events bot))).
  { revert bot Hl. induction Hoff as [|[d ev] rest Hev _ IH]; intros bot Hl; simpl;
      [exact Hl|].
    apply IH. now apply dispatch_labelled. }
  split; [exact H|]. intros u. now apply labelled_distinct.
Qed.

Lemma get_balance_again s u today :
  get_balance today u (snd (get_balance today u s)) = get_balance today u s.
Proof.
  destruct (get_balance_cases s u today)
    as [(bt & H1 & E) | [(H1 & v & E & _) | (H1 & lb & H2 & Hd & E)]]; rewrite E; simpl snd.
  - exact E.
  - now rewrite (get_balance_today _ _ _ _ (first_balance_at_new s u today v H1)).
  - exact E.
Qed.

(** X17. [/start] only looks. It answers with the balance [get_balance]
    resolves and leaves the store [get_balance] leaves; a pending amount
    still waits for its category and a user asked for a budget amount is
    still asked; and a second [/start] on the same day gives the same
    answer and changes nothing at all. *)
Theorem start_only_looks bot u today :
  let bot1 := outcome_bot (dispatch today (Message u "/start") bot) in
  dispatch today (Message u "/start") bot
    = Done bot1 [Greeting (fst (get_balance today u (store bot)))] /\
  store bot1 = snd (get_balance today u (store bot)) /\
  pending_expenses bot1 = pending_expenses bot /\
  awaiting_budget_add bot1 = awaiting_budget_add bot /\
  dispatch today (Message u "/start") bot1
    = Done bot1 [Greeting (fst (get_balance today u (store bot)))].
Proof.
  assert (Hstep : forall b : Bot A,
            dispatch today (Message u "/start") b =
              Done {| store := snd (get_balance today u (store b));
                      pending_expenses := pending_expenses b;
                      awaiting_budget_add := awaiting_budget_add b |}
                   [Greeting (fst (get_balance today u (store b)))]).
  { intros b. unfold dispatch. simpl String.eqb. cbv iota.
    unfold start_cmd, in_session. destruct (get_balance today u (store b)). reflexivity. }
  cbv zeta. rewrite (Hstep bot). simpl outcome_bot.
  split; [reflexivity|]. split; [reflexivity|]. split; [reflexivity|].
  split; [reflexivity|].
  rewrite Hstep. simpl store. simpl pending_expenses. simpl awaiting_budget_add.
  rewrite !get_balance_again. reflexivity.
Qed.

End KeyboardFacts.

Lemma offered_buttons_are_answered_witness :
  exists bot' out,
    dispatch 4 (Callback 7 "cat_Прочее")
      {| store := ex_day1; pending_expenses := {[7 := 120%Q]}; awaiting_budget_add := ∅ |}
    = Done bot' out.
Proof.
  apply offered_buttons_are_answered.
  simpl. repeat (first [left; reflexivity | right]).
Defined.

Lemma keyboards_keep_labels_distinct_witness :
  labelled (store (run_events [(1, Message 7 "500"); (1, Callback 7 "cat_Транспорт")]
                     {| store := @empty_store Q;
                        pending_expenses := ∅;
                        awaiting_budget_add := ∅ |})) /\
  forall u,
    labels_distinct u
      (store (run_events [(1, Message 7 "500"); (1, Callback 7 "cat_Транспорт")]
                {| store := @empty_store Q;
                   pending_expenses := ∅;
                   awaiting_budget_add := ∅ |})).
Proof.
  apply keyboards_keep_labels_distinct.
  - constructor; [exact I|]. constructor; [|constructor].
    simpl. repeat (first [left; reflexivity | right]).
  - intros e [].
Defined.


(** ** The day report in the life of the bot *)

Section SettledFacts.

Context {A : Type} {num : Num A}.

Hypothesis sub_zero : forall x : A, sub x (of_int 0) = x.

Implicit Types (s : Store A) (bot : Bot A) (u today : Z).

Lemma first_balance_at_some s u d bt :
  first_balance_at u d s = Some bt ->
  In bt (balances s) /\ b_user_id bt = u /\ b_date bt = d.
Proof.
  unfold first_balance_at. intros H. apply find_some in H. destruct H as [Hin F].
  unfold balance_at in F. apply andb_true_iff in F. destruct F as [Fu Fd].
  apply Z.eqb_eq in Fu, Fd. now repeat split.
Qed.

(** Each call leaves a snapshot of its user dated today. *)
Lemma run_op_row s today (op : Op A) d0 :
  ledger_ok d0 s -> d0 <= today ->
  exists b, In b (balances (run_op today op s)) /\
            b_user_id b = op_user op /\ b_date b = today.
Proof.
  intros Hok Hle.
  assert (Hrow : forall u, exists bt,
             In bt (balances (snd (get_balance today u s))) /\
             b_user_id bt = u /\ b_date bt = today).
  { intros u.
    pose proof (ledger_ok_no_later s u today (ledger_ok_later s d0 today Hok Hle)) as Hn.
    destruct (get_balance_settles s u today Hn) as (bt & Hbt & _).
    exists bt. now apply first_balance_at_some. }
  assert (Hupd : forall u v s1 bt,
             In bt (balances s1) -> b_user_id bt = u -> b_date bt = today ->
             exists b, In b (balances (snd (update_balance today u v s1))) /\
                       b_user_id b = u /\ b_date b = today).
  { intros u v s1 bt Hin Hu Hd. exists (set_balance_at u today v bt). split.
    - simpl. now apply in_map.
    - destruct (set_balance_at_key u today v bt) as [K _]. unfold snapshot_key in K.
      injection K as _ K1 K2. now rewrite K1, K2. }
  destruct op as [u | u amount category | u amount]; simpl.
  - apply Hrow.
  - rewrite add_expense_store. destruct (Hrow u) as (bt & Hin & Hu & Hd).
    now apply (Hupd u _ _ bt).
  - rewrite add_to_budget_store. destruct (Hrow u) as (bt & Hin & Hu & Hd).
    now apply (Hupd u _ _ bt).
Qed.

Lemma run_op_settled s today (op : Op A) d0 :
  ledger_ok d0 s -> d0 <= today -> settled s -> settled (run_op today op s).
Proof.
  intros Hok Hle Hs e He.
  destruct (run_op_appends s today op)
    as [(new & Ee & _ & Hnew) (newb & g & Eb & _ & _ & Hg)].
  rewrite Ee in He. apply in_app_or in He. destruct He as [He|He].
  - destruct (Hs e He) as (b & Hb & Hu & Hd). exists (g b). split.
    + rewrite Eb. apply in_map. apply in_or_app. now left.
    + destruct (Hg b) as [K _]. unfold snapshot_key in K. injection K as _ K1 K2.
      now rewrite K1, K2.
  - destruct (Hnew e He) as [Hu Hd]. rewrite Hu, Hd. now apply (run_op_row s today op d0).
Qed.

Lemma dispatch_settled today (ev : Event) bot d0 :
  ledger_ok d0 (store bot) -> d0 <= today -> settled (store bot) ->
  settled (store (outcome_bot (dispatch today ev bot))).
Proof.
  intros Hok Hle Hs. destruct (dispatch_store today ev bot) as [E | (op & _ & E)]; rewrite E.
  - exact Hs.
  - now apply (run_op_settled _ today op d0).
Qed.

Lemma run_events_settled (events : list (date * Event)) bot d0 :
  clock_ascends d0 events = true ->
  ledger_ok d0 (store bot) -> settled (store bot) ->
  ledger_ok (clock_end d0 events) (store (run_events events bot)) /\
  settled (store (run_events events bot)).
Proof.
  revert bot d0. induction events as [|[d ev] rest IH]; simpl; intros bot d0 Hasc Hok Hs;
    [now split|].
  apply andb_true_iff in Hasc. destruct Hasc as [Hle Hasc]. apply Z.leb_le in Hle.
  unfold clock_end in *. simpl. apply (IH _ d Hasc).
  - now apply (dispatch_ok d ev bot d0).
  - now apply (dispatch_settled d ev bot d0).
Qed.

(** In a store in order, with every expense on a day with a snapshot, the
    day report computes what [get_balance] returns. *)
Lemma settled_report s u today :
  ledger_ok today s -> settled s ->
  fst (day_report_balance today u s) = fst (get_balance today u s).
Proof.
  intros Hok Hs.
  destruct (first_balance_at u today s) as [bt|] eqn:H1.
  - now rewrite (day_report_balance_today _ _ _ _ H1), (get_balance_today _ _ _ _ H1).
  - pose proof H1 as H1'. rewrite first_balance_at_none in H1'.
    assert (He : expenses_at u today s = []).
    { unfold expenses_at. apply filter_none. intros e Hin.
      destruct ((e_user_id e =? u) && (e_date e =? today)) eqn:F; [|reflexivity].
      apply andb_true_iff in F. destruct F as [Fu Fd]. apply Z.eqb_eq in Fu, Fd.
      destruct (Hs e Hin) as (b & Hb & Hu & Hd). exfalso. apply (H1' b Hb). split; congruence. }
    rewrite (day_report_balance_restored sub_zero _ _ _ H1 He).
    destruct (last_balance_of u s) as [lb|] eqn:H2.
    + pose proof (last_balance_of_some _ _ _ H2) as (Hin & Hu & _).
      destruct Hok as [Hdate _]. pose proof (Hdate lb Hin) as Hle.
      assert (Hne : b_date lb <> today) by (intros E; now apply (H1' lb Hin)).
      rewrite (get_balance_catch_up s u today lb H1 H2) by lia. reflexivity.
    + now rewrite (get_balance_first _ _ _ H1 H2).
Qed.

(** X18. The day report shows the balance of [/start]. Start from a store
    in order in which every expense lies on a day with a snapshot of its
    user (the empty store is one), and let users send whatever they will,
    each event handled to its end before the next, while the day never
    decreases. Then on any day not before the last
    event the day report carries exactly the balance [get_balance]
    resolves: the report's own accrual, which subtracts today's expenses
    and knows no clock guard, never comes to differ, because an expense
    is only ever written together with its day's snapshot. *)
Theorem day_report_shows_the_balance (events : list (date * Event)) bot d0 today u :
  clock_ascends d0 events = true ->
  clock_end d0 events <= today ->
  ledger_ok d0 (store bot) ->
  settled (store bot) ->
  let bot' := run_events events bot in
  fst (day_report_balance today u (store bot')) = fst (get_balance today u (store bot')) /\
  exists rows total,
    dispatch today (Callback u "stats_day") bot'
    = Done bot' [PeriodReport "день" rows total
                   (Some (fst (get_balance today u (store bot'))));
                 CallbackAnswered].
Proof.
  intros Hasc Hle Hok Hs bot'.
  assert (E : fst (day_report_balance today u (store bot'))
              = fst (get_balance today u (store bot'))).
  { destruct (run_events_settled events bot d0 Hasc Hok Hs) as [Hok' Hs'].
    apply settled_report; [|exact Hs'].
    now apply (ledger_ok_later _ (clock_end d0 events)). }
  split; [exact E|].
  unfold dispatch. simpl String.prefix. cbv iota. simpl String.eqb. cbv iota.
  rewrite stats_callback_steps. simpl. rewrite E. eauto.
Qed.

End SettledFacts.

(** In binary64: 500 sent on 9 March and filed on 10 March, the day
    report asked for on 11 March. *)
Lemma day_report_shows_the_balance_witness :
  let events := [(march_10 - 1, Message 7 "500");
                 (march_10, Callback 7 "cat_Транспорт")] in
  let bot := run_events events
               {| store := @empty_store PrimFloat.float;
                  pending_expenses := ∅;
                  awaiting_budget_add := ∅ |} in
  fst (day_report_balance (march_10 + 1) 7 (store bot)) = float_of_Z 3500 /\
  fst (get_balance (march_10 + 1) 7 (store bot)) = float_of_Z 3500.
Proof.
  intros events bot.
  assert (Hle : clock_end (march_10 - 1) events <= march_10 + 1)
    by (vm_compute; discriminate).
  assert (Hs : settled (@empty_store PrimFloat.float)) by (intros e []).
  pose proof (proj1 (day_report_shows_the_balance float_sub_zero events
                       {| store := @empty_store PrimFloat.float;
                          pending_expenses := ∅;
                          awaiting_budget_add := ∅ |}
                       (march_10 - 1) (march_10 + 1) 7 eq_refl Hle
                       (ledger_ok_empty (march_10 - 1)) Hs)) as H.
  fold bot in H. rewrite H. split; vm_compute; reflexivity.
Defined.


(** ** The period report *)

Lemma fold_total_qsum {K} (stats : list (K * Q)) (x : Q) :
  (fold_left (fun total ca => add total (snd ca)) stats x
   == x + qsum (List.map snd stats))%Q.
Proof.
  revert x. induction stats as [|[k v] stats IH]; simpl; intros x; [ring|].
  rewrite IH. simpl. ring.
Qed.

(** X19. The report of a day or a month adds up. For the periods "day"
    and "month" the handler answers with one line for each row of
    [get_stats], under the label of the row's category; the total it
    prints is the exact sum of the lines, which is the sum of the user's
    expenses dated from the period's first day on; and the balance of the
    day is added for "day" only. *)
Theorem period_report_adds_up (bot : Bot Q) (u today : Z) (data period : string) :
  nth_error (split "_" data) 1 = Some period ->
  period = "day" \/ period = "month" ->
  let start_date := if String.eqb period "month" then replace_day_1 today else today in
  let found := List.filter (expense_since u start_date) (expenses (store bot)) in
  exists name rows total balance_today,
    stats_callback today u data bot
    = Done bot [PeriodReport name rows total balance_today; CallbackAnswered] /\
    dict_get period names = Some name /\
    (total == qsum (List.map snd rows))%Q /\
    (total == qsum (List.map e_amount found))%Q /\
    (forall l, In l (List.map fst rows) <->
               exists e, In e found /\ label (e_category e) = l) /\
    (balance_today = None <-> period = "month").
Proof.
  intros Hp Hperiod. cbv zeta. rewrite stats_callback_steps, Hp.
  assert (Hstats : fst (get_stats today u period (store bot)) =
                   group_sum
                     (List.map (fun e => (e_category e, e_amount e))
                        (List.filter
                           (expense_since u
                              (if String.eqb period "month" then replace_day_1 today
                               else today))
                           (expenses (store bot))))).
  { destruct Hperiod as [-> | ->]; reflexivity. }
  set (found := List.filter _ (expenses (store bot))) in *.
  assert (Hsum : forall stats : list (option string * Q),
            (fold_left (fun total ca => add total (snd ca)) stats (of_int 0)
             == qsum (List.map snd (List.map (fun ca => (label (fst ca), snd ca)) stats)))%Q).
  { intros stats. rewrite fold_total_qsum, List.map_map.
    change (List.map (fun x => snd (label (fst x), snd x)) stats) with (List.map snd stats).
    change (of_int 0) with 0%Q. ring. }
  assert (Htotal : (fold_left (fun total ca => add total (snd ca))
                      (fst (get_stats today u period (store bot))) (of_int 0)
                    == qsum (List.map e_amount found))%Q).
  { rewrite Hsum, List.map_map.
    change (List.map (fun x => snd (label (fst x), snd x))
              (fst (get_stats today u period (store bot))))
      with (List.map snd (fst (get_stats today u period (store bot)))).
    rewrite Hstats, group_sum_total, List.map_map. reflexivity. }
  assert (Hlabels : forall l,
            In l (List.map fst (List.map (fun ca => (label (fst ca), snd ca))
                                  (fst (get_stats today u period (store bot))))) <->
            exists e, In e found /\ label (e_category e) = l).
  { intros l. rewrite List.map_map, Hstats, in_map_iff. split.
    - intros ([cat v] & <- & Hin). apply (in_map fst) in Hin.
      apply (proj1 (group_sum_key_iff _ _)) in Hin. rewrite List.map_map in Hin.
      apply in_map_iff in Hin. destruct Hin as (e & Ee & He). simpl in Ee.
      exists e. split; [exact He|]. simpl. now rewrite Ee.
    - intros (e & He & <-).
      assert (Hk : In (e_category e)
                     (List.map fst
                        (group_sum (List.map (fun e => (e_category e, e_amount e)) found)))).
      { apply group_sum_key_iff. rewrite List.map_map. apply in_map_iff. now exists e. }
      apply in_map_iff in Hk. destruct Hk as (ca & Eca & Hca).
      exists ca. split; [now rewrite Eca | exact Hca]. }
  destruct Hperiod as [-> | ->]; simpl String.eqb in *; cbv iota; simpl dict_get; cbv zeta.
  - eexists. eexists. eexists. eexists. split; [reflexivity|].
    split; [reflexivity|]. split; [apply Hsum|]. split; [exact Htotal|].
    split; [exact Hlabels|]. split; discriminate.
  - eexists. eexists. eexists. eexists. split; [reflexivity|].
    split; [reflexivity|]. split; [apply Hsum|]. split; [exact Htotal|].
    split; [exact Hlabels|]. split; reflexivity.
Qed.

Lemma period_report_adds_up_witness :
  exists name rows total balance_today,
    stats_callback 1 7 "stats_month"
      {| store := ex_day1; pending_expenses := ∅; awaiting_budget_add := ∅ |}
    = Done {| store := ex_day1; pending_expenses := ∅; awaiting_budget_add := ∅ |}
        [PeriodReport name rows total balance_today; CallbackAnswered] /\
    Qeq total 500.
Proof.
  destruct (period_report_adds_up
              {| store := ex_day1; pending_expenses := ∅; awaiting_budget_add := ∅ |}
              7 1 "stats_month" "month" eq_refl (or_intror eq_refl))
    as (name & rows & total & balance_today & E & _ & _ & Ht & _).
  exists name, rows, total, balance_today. split; [exact E|].
  rewrite Ht. vm_compute. reflexivity.
Defined.
